(** * FileOrganizer: a shallow embedding of [automation_Python_Script.py]

    The script sorts the regular files of one directory into category
    sub-folders of [organized_files], chosen by file extension, and writes a
    short report.  This development embeds the class [FileOrganizer] and
    [main] and states the properties of the specification over them.

    Modelling choices, each following the source:
    - Python strings are [string]s of 8-bit characters, the UTF-8 bytes
      of a [str]; [lower] and [capitalize] map the ASCII letters, and
      classification is also stated for [str.lower] as any case mapping.
    - [self.categories] is a [dict] literal; iteration follows insertion
      order, so it is an association list.
    - A [pathlib.Path] is a root and a list of components (POSIX flavour),
      compared as [pathlib] compares paths, by spelling; every entry of
      the file system is taken to be reached under one spelling only.
    - The file system is a finite map from paths to nodes; [os.listdir]
      order and the wall clock are inputs of a run.
    - Exceptions, the log and standard output are threaded through a small
      state-and-exception monad.

    What the file system of this development leaves out: access rights and
    limits on the length of names (an operation fails here only for the
    shape of the file system: a missing or wrong kind of entry), and the
    file [file_organizer.log] that [logging] appends to, whose records are
    kept as a list beside the file system.  Statements about what a run
    leaves unchanged therefore except the path of that file, and statements
    about where files end up are made for operations that return. *)

From Stdlib Require Import Ascii String.
From stdpp Require Import gmap strings list fin_maps pretty.

(** ** Strings *)

(** [str.lower] on one character: 'A'..'Z' are shifted to 'a'..'z'. *)
Definition lower_ascii (a : ascii) : ascii :=
  let n := nat_of_ascii a in
  if (65 <=? n)%nat && (n <=? 90)%nat then ascii_of_nat (n + 32) else a.

(** [str.upper] on one character. *)
Definition upper_ascii (a : ascii) : ascii :=
  let n := nat_of_ascii a in
  if (97 <=? n)%nat && (n <=? 122)%nat then ascii_of_nat (n - 32) else a.

(** [s.lower()] *)
Fixpoint lower (s : string) : string :=
  match s with
  | EmptyString => EmptyString
  | String a s' => String (lower_ascii a) (lower s')
  end.

(** [s.capitalize()]: first character upper-cased, the rest lower-cased. *)
Definition capitalize (s : string) : string :=
  match s with
  | EmptyString => EmptyString
  | String a s' => String (upper_ascii a) (lower s')
  end.

(** ** The category table (lines 24-31) *)

Definition categories : list (string * list string) :=
  [ ("documents", [".pdf"; ".doc"; ".docx"; ".txt"; ".rtf"; ".odt"]);
    ("images",    [".jpg"; ".jpeg"; ".png"; ".gif"; ".bmp"; ".svg"]);
    ("audio",     [".mp3"; ".wav"; ".flac"; ".m4a"]);
    ("videos",    [".mp4"; ".avi"; ".mkv"; ".mov"]);
    ("archives",  [".zip"; ".rar"; ".7z"; ".tar"; ".gz"]);
    ("code",      [".py"; ".js"; ".html"; ".css"; ".java"; ".cpp"]) ].

(** ** [get_category] (lines 54-59)

    The loop over [self.categories.items()], returning at the first
    category whose list holds the lower-cased extension. *)
Fixpoint get_category_in (cats : list (string * list string))
    (file_extension : string) : string :=
  match cats with
  | [] => "misc"
  | (category, extensions) :: rest =>
      if bool_decide (lower file_extension ∈ extensions) then category
      else get_category_in rest file_extension
  end.

Definition get_category (file_extension : string) : string :=
  get_category_in categories file_extension.

(** The same loop with [str.lower] left open.  A Python [str] is held as
    the sequence of its UTF-8 bytes, so every string is covered and two
    strings are equal exactly when their bytes are; [str.lower] follows the
    Unicode tables of the interpreter and is the parameter [str_lower].
    [get_category] above is this loop at [lower], the mapping of the ASCII
    letters, which is what [str.lower] does on ASCII text. *)
Section CaseMapping.
Variable str_lower : string → string.

Fixpoint get_category_by_in (cats : list (string * list string))
    (file_extension : string) : string :=
  match cats with
  | [] => "misc"
  | (category, extensions) :: rest =>
      if bool_decide (str_lower file_extension ∈ extensions) then category
      else get_category_by_in rest file_extension
  end.

Definition get_category_by (file_extension : string) : string :=
  get_category_by_in categories file_extension.
End CaseMapping.

(** ** File names: [Path.suffix] and [Path.stem]

    [pathlib] (CPython 3.8 to 3.13) computes both from
    [i = name.rfind('.')]: when [0 < i < len(name) - 1] the suffix is
    [name[i:]] and the stem [name[:i]]; otherwise the suffix is empty and
    the stem is the whole name. *)

(** [s.rfind(c)], [None] standing for Python's [-1]. *)
Fixpoint rfind (c : ascii) (s : string) : option nat :=
  match s with
  | EmptyString => None
  | String a s' =>
      match rfind c s' with
      | Some i => Some (S i)
      | None => if Ascii.eqb a c then Some 0 else None
      end
  end.

(** [s[n:]] and [s[:n]] *)
Fixpoint str_drop (n : nat) (s : string) : string :=
  match n, s with
  | S n', String _ s' => str_drop n' s'
  | _, _ => s
  end.

Fixpoint str_take (n : nat) (s : string) : string :=
  match n, s with
  | S n', String a s' => String a (str_take n' s')
  | _, _ => EmptyString
  end.

Definition dot : ascii := "."%char.

(** The index at which [suffix] and [stem] cut the name, if they cut. *)
Definition cut_index (name : string) : option nat :=
  match rfind dot name with
  | Some i =>
      if (0 <? i)%nat && (i <? String.length name - 1)%nat then Some i
      else None
  | None => None
  end.

Definition suffix (name : string) : string :=
  match cut_index name with
  | Some i => str_drop i name
  | None => EmptyString
  end.

Definition stem (name : string) : string :=
  match cut_index name with
  | Some i => str_take i name
  | None => name
  end.

(** ** Paths

    [PurePosixPath]: a root ([""], ["/"] or ["//"]) and the components.
    Two paths are equal when both agree. *)
Record Path := mkPath { root : string; parts : list string }.

#[global] Instance Path_eq_dec : EqDecision Path.
Proof. solve_decision. Defined.

#[global] Instance Path_countable : Countable Path.
Proof.
  apply (inj_countable' (λ p, (root p, parts p))
                        (λ x, mkPath (fst x) (snd x))).
  by intros [].
Defined.

(** Splitting at a separator, as [str.split(sep)]. *)
Fixpoint split_on (sep : ascii) (s : string) : list string :=
  match s with
  | EmptyString => [EmptyString]
  | String a s' =>
      if Ascii.eqb a sep then EmptyString :: split_on sep s'
      else match split_on sep s' with
           | w :: ws => String a w :: ws
           | [] => [String a EmptyString]
           end
  end.

Fixpoint leading (c : ascii) (s : string) : nat :=
  match s with
  | String a s' => if Ascii.eqb a c then S (leading c s') else 0
  | EmptyString => 0
  end.

(** [Path(s)]: exactly two leading slashes make the root ["//"], any other
    positive number ["/"]; empty components and ["."] are dropped. *)
Definition Path_of_string (s : string) : Path :=
  let r := match leading "/"%char s with
           | 0 => ""
           | 2 => "//"
           | _ => "/"
           end in
  mkPath r (filter (λ c, c ≠ "" ∧ c ≠ ".") (split_on "/"%char s)).

(** [p / name] for a single file name [name]: one more component.  Every
    right operand in the script is a table key, a literal, a listing entry
    or a name built from one. *)
Definition child (p : Path) (name : string) : Path :=
  mkPath (root p) (parts p ++ [name]).

Notation "p // n" := (child p n) (at level 40, left associativity).

(** [p.parent] and [p.name] *)
Definition parent (p : Path) : Path :=
  mkPath (root p) (removelast (parts p)).

Definition name (p : Path) : string := default "" (last (parts p)).

(** [str(p)] *)
Fixpoint join_sep (l : list string) : string :=
  match l with
  | [] => ""
  | [x] => x
  | x :: l' => x +:+ "/" +:+ join_sep l'
  end.

Definition Path_str (p : Path) : string :=
  match root p, parts p with
  | EmptyString, [] => "."
  | r, l => r +:+ join_sep l
  end.

(** ** The clock

    [datetime.now()] yields calendar fields; every field of a [datetime] is
    within its calendar range (year 1 to 9999), where
    [strftime("%Y%m%d_%H%M%S")] prints four digits for the year and two for
    each other field. *)
Record datetime := mkDatetime {
  year : nat; month : nat; day : nat;
  hour : nat; minute : nat; second : nat }.

Definition digit (n : nat) : ascii := ascii_of_nat (48 + n mod 10).

Definition pad2 (n : nat) : string :=
  String (digit (n / 10)) (String (digit n) EmptyString).

Definition pad4 (n : nat) : string :=
  String (digit (n / 1000)) (String (digit (n / 100)) (pad2 n)).

Definition strftime (t : datetime) : string :=
  pad4 (year t) +:+ pad2 (month t) +:+ pad2 (day t) +:+ "_" +:+
  pad2 (hour t) +:+ pad2 (minute t) +:+ pad2 (second t).

(** ** The file system, the log and standard output *)

Inductive node := File (content : string) | Dir.

#[global] Instance node_eq_dec : EqDecision node.
Proof. solve_decision. Defined.

(** The exceptions the file operations of the script can raise. *)
Inductive exn :=
  | FileExistsError (p : Path)
  | FileNotFoundError (p : Path)
  | NotADirectoryError (p : Path)
  | IsADirectoryError (p : Path)
  | ShutilError (p : Path).

(** [str(e)] *)
Definition exn_str (e : exn) : string :=
  match e with
  | FileExistsError p => "[Errno 17] File exists: '" +:+ Path_str p +:+ "'"
  | FileNotFoundError p =>
      "[Errno 2] No such file or directory: '" +:+ Path_str p +:+ "'"
  | NotADirectoryError p =>
      "[Errno 20] Not a directory: '" +:+ Path_str p +:+ "'"
  | IsADirectoryError p =>
      "[Errno 21] Is a directory: '" +:+ Path_str p +:+ "'"
  | ShutilError p =>
      "Destination path '" +:+ Path_str p +:+ "' already exists"
  end.

Inductive level := INFO | ERROR.

(** The state a run acts on: the file system, the records handed to
    [logging], the lines written to standard output, and the two counters
    of [organize_files]. *)
Record state := mkState {
  fs : gmap Path node;
  log : list (level * string);
  stdout : list string;
  total_files : nat;
  organized_files : nat }.

Definition set_fs (f : gmap Path node) (st : state) : state :=
  mkState f (log st) (stdout st) (total_files st) (organized_files st).

(** ** A state-and-exception monad *)

Inductive result (A : Type) := Ok (a : A) | Raise (e : exn).
Arguments Ok {A} a.
Arguments Raise {A} e.

Definition M (A : Type) : Type := state → result A * state.

#[global] Instance M_ret : MRet M := λ A a st, (Ok a, st).

#[global] Instance M_bind : MBind M := λ A B f m st,
  match m st with
  | (Ok a, st') => f a st'
  | (Raise e, st') => (Raise e, st')
  end.

Definition raise {A} (e : exn) : M A := λ st, (Raise e, st).

(** [try: m  except Exception as e: h e] *)
Definition try_except {A} (m : M A) (h : exn → M A) : M A := λ st,
  match m st with
  | (Ok a, st') => (Ok a, st')
  | (Raise e, st') => h e st'
  end.

Definition logging_info (msg : string) : M unit := λ st,
  (Ok (), mkState (fs st) (log st ++ [(INFO, msg)]) (stdout st)
                  (total_files st) (organized_files st)).

Definition logging_error (msg : string) : M unit := λ st,
  (Ok (), mkState (fs st) (log st ++ [(ERROR, msg)]) (stdout st)
                  (total_files st) (organized_files st)).

Definition print (line : string) : M unit := λ st,
  (Ok (), mkState (fs st) (log st) (stdout st ++ [line])
                  (total_files st) (organized_files st)).

(** ** File operations *)

(** [p.exists()], [p.is_file()], [p.is_dir()] *)
Definition exists_in (f : gmap Path node) (p : Path) : bool :=
  bool_decide (is_Some (f !! p)).

Definition is_file_in (f : gmap Path node) (p : Path) : bool :=
  match f !! p with Some (File _) => true | _ => false end.

Definition is_dir_in (f : gmap Path node) (p : Path) : bool :=
  match f !! p with Some Dir => true | _ => false end.

Definition path_exists (p : Path) : M bool := λ st, (Ok (exists_in (fs st) p), st).
Definition is_file (p : Path) : M bool := λ st, (Ok (is_file_in (fs st) p), st).

(** The failure of an operation that needs [parent p] to be a directory. *)
Definition parent_error (f : gmap Path node) (p : Path) : exn :=
  match f !! parent p with
  | Some (File _) => NotADirectoryError p
  | _ => FileNotFoundError p
  end.

(** [p.mkdir()] *)
Definition mkdir (p : Path) : M unit := λ st,
  if exists_in (fs st) p then (Raise (FileExistsError p), st)
  else if is_dir_in (fs st) (parent p) then (Ok (), set_fs (<[p := Dir]> (fs st)) st)
  else (Raise (parent_error (fs st) p), st).

(** [shutil.move(src, dst)] for a regular file [src].  When [dst] is an
    existing directory the file goes inside it, unless an entry of that
    name is there already, which is an error; otherwise [os.rename]
    replaces whatever file is at [dst].  The script passes only paths for
    which [is_file()] has just held. *)
Definition move (src dst : Path) : M unit := λ st,
  match fs st !! src with
  | Some (File c) =>
      if is_dir_in (fs st) dst then
        let real_dst := dst // name src in
        if exists_in (fs st) real_dst then (Raise (ShutilError real_dst), st)
        else (Ok (), set_fs (<[real_dst := File c]> (delete src (fs st))) st)
      else if is_dir_in (fs st) (parent dst) then
        (Ok (), set_fs (<[dst := File c]> (delete src (fs st))) st)
      else (Raise (parent_error (fs st) dst), st)
  | _ => (Raise (FileNotFoundError src), st)
  end.

(** [p.write_text(text)] *)
Definition write_text (p : Path) (text : string) : M unit := λ st,
  if is_dir_in (fs st) p then (Raise (IsADirectoryError p), st)
  else if is_dir_in (fs st) (parent p) then
    (Ok (), set_fs (<[p := File text]> (fs st)) st)
  else (Raise (parent_error (fs st) p), st).

(** The entries directly inside [d], and [len(list(d.glob('*')))]: the
    pattern matches every entry, hidden ones and directories included; a
    path that is no directory has none. *)
Definition entries_of (f : gmap Path node) (d : Path) : gmap Path node :=
  filter (λ kv, parts kv.1 ≠ [] ∧ parent kv.1 = d) f.

Definition glob_count (f : gmap Path node) (d : Path) : nat :=
  if is_dir_in f d then size (entries_of f d) else 0.

(** The regular files directly inside [d]. *)
Definition files_of (f : gmap Path node) (d : Path) : gmap Path node :=
  filter (λ kv, (parts kv.1 ≠ [] ∧ parent kv.1 = d) ∧ kv.2 ≠ Dir) f.

(** ** The class [FileOrganizer] *)

Section FileOrganizer.
(** [self.source_dir]; the names [os.listdir] returns for it, in the order
    it returns them; and the clock reading during the [i]-th iteration of
    the loop of [organize_files]. *)
Variable source_dir : Path.
Variable scan : list string.
Variable now : nat → datetime.

Definition organized_dir : Path := source_dir // "organized_files".

(** [p.iterdir()] *)
Definition iterdir (d : Path) : M (list Path) := λ st,
  match fs st !! d with
  | Some Dir => (Ok (map (child d) scan), st)
  | Some (File _) => (Raise (NotADirectoryError d), st)
  | None => (Raise (FileNotFoundError d), st)
  end.

(** [if not p.exists(): p.mkdir()] *)
Definition ensure_dir (p : Path) : M unit :=
  e ← path_exists p;
  if e : bool then mret () else mkdir p.

Fixpoint ensure_dirs (ps : list Path) : M unit :=
  match ps with
  | [] => mret ()
  | p :: rest => ensure_dir p ;; ensure_dirs rest
  end.

(** The directories of lines 36-47, in the order they are visited. *)
Definition layout : list Path :=
  organized_dir
    :: map (λ c, organized_dir // c.1) categories
    ++ [organized_dir // "misc"].

(** [create_directories] (lines 33-52) *)
Definition create_directories : M unit :=
  try_except
    (ensure_dirs layout ;;
     logging_info "Directory structure created successfully")
    (λ e, logging_error ("Error creating directories: " +:+ exn_str e) ;;
          raise e).

(** The destination a colliding file is renamed to (lines 85-88). *)
Definition renamed (dest_dir dest_path : Path) (t : datetime) : Path :=
  let base_name := stem (name dest_path) in
  let extension := suffix (name dest_path) in
  dest_dir // (base_name +:+ "_" +:+ strftime t +:+ extension).

Definition log_file : Path := Path_of_string "file_organizer.log".

Definition count_total : M unit := λ st,
  (Ok (), mkState (fs st) (log st) (stdout st)
                  (total_files st + 1) (organized_files st)).

Definition count_organized : M unit := λ st,
  (Ok (), mkState (fs st) (log st) (stdout st)
                  (total_files st) (organized_files st + 1)).

Definition reset_counts : M unit := λ st,
  (Ok (), mkState (fs st) (log st) (stdout st) 0 0).

Definition counts : M (nat * nat) := λ st,
  (Ok (organized_files st, total_files st), st).

(** The body of the loop of [organize_files] (lines 72-93), in its
    [i]-th iteration. *)
Definition organize_one (i : nat) (file_path : Path) : M unit :=
  f ← is_file file_path;
  if (f : bool) && bool_decide (file_path ≠ log_file) then
    count_total ;;
    let file_extension := suffix (name file_path) in
    let category := get_category file_extension in
    let dest_dir := organized_dir // category in
    let dest_path := dest_dir // name file_path in
    e ← path_exists dest_path;
    let dest_path :=
      if e : bool then renamed dest_dir dest_path (now i) else dest_path in
    move file_path dest_path ;;
    count_organized ;;
    logging_info ("Moved '" +:+ name file_path +:+ "' to " +:+ category
                  +:+ " folder")
  else mret ().

Fixpoint organize_loop (i : nat) (entries : list Path) : M unit :=
  match entries with
  | [] => mret ()
  | file_path :: rest =>
      organize_one i file_path ;; organize_loop (S i) rest
  end.

(** [organize_files] (lines 61-101) *)
Definition organize_files : M (nat * nat) :=
  try_except
    (reset_counts ;;
     create_directories ;;
     entries ← iterdir source_dir;
     organize_loop 0 entries ;;
     c ← counts;
     logging_info ("Organization complete. Processed " +:+ pretty c.1
                   +:+ " of " +:+ pretty c.2 +:+ " files") ;;
     mret c)
    (λ e, logging_error ("Error organizing files: " +:+ exn_str e) ;;
          raise e).

(** One line of the report (lines 113 and 118). *)
Definition report_line (label : string) (n : nat) : string :=
  label +:+ ": " +:+ pretty n +:+ " files".

Definition glob_len (d : Path) : M nat := λ st,
  (Ok (glob_count (fs st) d), st).

Fixpoint report_categories (cats : list (string * list string))
    : M (list string) :=
  match cats with
  | [] => mret []
  | (category, _) :: rest =>
      n ← glob_len (organized_dir // category);
      lines ← report_categories rest;
      mret (report_line (capitalize category) n :: lines)
  end.

Fixpoint join_lines (l : list string) : string :=
  match l with
  | [] => ""
  | [x] => x
  | x :: l' => x +:+ String "010"%char (join_lines l')
  end.

(** The lines of the report (lines 107-118). *)
Definition report_lines : M (list string) :=
  lines ← report_categories categories;
  n ← glob_len (organized_dir // "misc");
  mret (["File Organization Report"; "========================="]
        ++ lines ++ [report_line "Miscellaneous" n]).

(** [generate_report] (lines 103-127) *)
Definition generate_report : M unit :=
  try_except
    (report ← report_lines;
     write_text (organized_dir // "organization_report.txt")
                (join_lines report) ;;
     logging_info "Report generated successfully")
    (λ e, logging_error ("Error generating report: " +:+ exn_str e) ;;
          raise e).
End FileOrganizer.

(** ** [main] (lines 129-147)

    [user_input] is the line [input] returns; the prompt goes to standard
    output like the lines [print] writes. *)
Definition main (user_input : string) (scan : list string)
    (now : nat → datetime) : M unit :=
  try_except
    (print "Enter the directory path to organize: " ;;
     let source_dir := Path_of_string user_input in
     c ← organize_files source_dir scan now;
     generate_report source_dir ;;
     print (String "010"%char "Organization complete!") ;;
     print ("Processed " +:+ pretty c.1 +:+ " of " +:+ pretty c.2
            +:+ " files") ;;
     print "Check 'organization_report.txt' in the organized_files directory for details" ;;
     print "Check 'file_organizer.log' for detailed operation logs")
    (λ e, print ("An error occurred: " +:+ exn_str e) ;;
          logging_error ("Program terminated with error: " +:+ exn_str e)).

(** ** The methods over given file operations

    The same methods with [Path.mkdir], [shutil.move] and
    [Path.write_text] left open: what is said of an operation that raises
    then holds whatever makes it raise and whatever state it leaves
    behind.  With [mkdir], [move] and [write_text] for them they are the
    methods above. *)
Section Operations.
Variable mkdir_op : Path → M unit.
Variable move_op : Path → Path → M unit.
Variable write_text_op : Path → string → M unit.
Variable source_dir : Path.
Variable scan : list string.
Variable now : nat → datetime.

Definition ensure_dir_by (p : Path) : M unit :=
  e ← path_exists p;
  if e : bool then mret () else mkdir_op p.

Fixpoint ensure_dirs_by (ps : list Path) : M unit :=
  match ps with
  | [] => mret ()
  | p :: rest => ensure_dir_by p ;; ensure_dirs_by rest
  end.

Definition create_directories_by : M unit :=
  try_except
    (ensure_dirs_by (layout source_dir) ;;
     logging_info "Directory structure created successfully")
    (λ e, logging_error ("Error creating directories: " +:+ exn_str e) ;;
          raise e).

Definition organize_one_by (i : nat) (file_path : Path) : M unit :=
  f ← is_file file_path;
  if (f : bool) && bool_decide (file_path ≠ log_file) then
    count_total ;;
    let file_extension := suffix (name file_path) in
    let category := get_category file_extension in
    let dest_dir := organized_dir source_dir // category in
    let dest_path := dest_dir // name file_path in
    e ← path_exists dest_path;
    let dest_path :=
      if e : bool then renamed dest_dir dest_path (now i) else dest_path in
    move_op file_path dest_path ;;
    count_organized ;;
    logging_info ("Moved '" +:+ name file_path +:+ "' to " +:+ category
                  +:+ " folder")
  else mret ().

Fixpoint organize_loop_by (i : nat) (entries : list Path) : M unit :=
  match entries with
  | [] => mret ()
  | file_path :: rest =>
      organize_one_by i file_path ;; organize_loop_by (S i) rest
  end.

Definition organize_files_by : M (nat * nat) :=
  try_except
    (reset_counts ;;
     create_directories_by ;;
     entries ← iterdir scan source_dir;
     organize_loop_by 0 entries ;;
     c ← counts;
     logging_info ("Organization complete. Processed " +:+ pretty c.1
                   +:+ " of " +:+ pretty c.2 +:+ " files") ;;
     mret c)
    (λ e, logging_error ("Error organizing files: " +:+ exn_str e) ;;
          raise e).

Definition generate_report_by : M unit :=
  try_except
    (report ← report_lines source_dir;
     write_text_op (organized_dir source_dir // "organization_report.txt")
                   (join_lines report) ;;
     logging_info "Report generated successfully")
    (λ e, logging_error ("Error generating report: " +:+ exn_str e) ;;
          raise e).
End Operations.

Definition main_by (mkdir_op : Path → M unit)
    (move_op : Path → Path → M unit)
    (write_text_op : Path → string → M unit)
    (user_input : string) (scan : list string)
    (now : nat → datetime) : M unit :=
  try_except
    (print "Enter the directory path to organize: " ;;
     let source_dir := Path_of_string user_input in
     c ← organize_files_by mkdir_op move_op source_dir scan now;
     generate_report_by write_text_op source_dir ;;
     print (String "010"%char "Organization complete!") ;;
     print ("Processed " +:+ pretty c.1 +:+ " of " +:+ pretty c.2
            +:+ " files") ;;
     print "Check 'organization_report.txt' in the organized_files directory for details" ;;
     print "Check 'file_organizer.log' for detailed operation logs")
    (λ e, print ("An error occurred: " +:+ exn_str e) ;;
          logging_error ("Program terminated with error: " +:+ exn_str e)).

(** ** Destinations

    The path computed at line 81 for a file named [n] of the source
    directory, the path it is renamed to when that one exists (line 88), and
    the one of the two handed to [shutil.move] in file system [f]. *)
Definition category_dir (source_dir : Path) (n : string) : Path :=
  organized_dir source_dir // get_category (suffix n).

Definition dest_of (source_dir : Path) (n : string) : Path :=
  category_dir source_dir n // n.

Definition renamed_of (source_dir : Path) (n : string) (t : datetime) : Path :=
  renamed (category_dir source_dir n) (dest_of source_dir n) t.

Definition target (source_dir : Path) (f : gmap Path node) (n : string)
    (t : datetime) : Path :=
  if exists_in f (dest_of source_dir n) then renamed_of source_dir n t
  else dest_of source_dir n.

(** [q] lies under [d]. *)
Definition under (d q : Path) : Prop :=
  root q = root d ∧ parts d `prefix_of` parts q.

(** The state in which [organize_files] hands on an exception [e] raised
    in state [st] (lines 99-101). *)
Definition organize_failed (e : exn) (st : state)
    : result (nat * nat) * state :=
  (Raise e, (logging_error ("Error organizing files: " +:+ exn_str e) st).2).

(** ** Sample runs

    A source directory [docs] of the working directory whose layout exists
    already, one clock reading, and the file systems used as examples
    below. *)
Definition docs : Path := Path_of_string "docs".
Definition noon : datetime := mkDatetime 2024 1 1 12 0 0.
Definition at_noon : nat → datetime := λ _, noon.

Definition fresh_state (f : gmap Path node) : state := mkState f [] [] 0 0.

Definition docs_layout : list (Path * node) :=
  [ (Path_of_string ".", Dir);
    (docs, Dir);
    (docs // "organized_files", Dir);
    (docs // "organized_files" // "documents", Dir);
    (docs // "organized_files" // "misc", Dir) ].

(** [a.txt] arrives where an [a.txt] is already filed. *)
Definition fs_collision : gmap Path node :=
  list_to_map (docs_layout ++
    [ (docs // "a.txt", File "new");
      (docs // "organized_files" // "documents" // "a.txt", File "old") ]).




(** A log file of the script's name in the source directory. *)
Definition fs_with_log (source_dir : Path) : gmap Path node :=
  list_to_map
    [ (source_dir, Dir);
      (source_dir // "file_organizer.log", File "2024-01-01 12:00:00 - x") ].

(** A sub-directory inside a category folder. *)
Definition fs_subfolder : gmap Path node :=
  list_to_map (docs_layout ++
    [ (docs // "organized_files" // "documents" // "drafts", Dir) ]).

(** The state in which [main] ends after catching [e] raised in state
    [st] (lines 145-147). *)
Definition main_failed (e : exn) (st : state) : state :=
  mkState (fs st)
          (log st ++ [(ERROR, "Program terminated with error: " +:+ exn_str e)])
          (stdout st ++ ["An error occurred: " +:+ exn_str e])
          (total_files st) (organized_files st).

(** The lines the report is expected to hold for a file system [f]: one
    per category in table order, with the number of entries of its folder,
    then the one of [misc]. *)
Definition expected_report (source_dir : Path) (f : gmap Path node)
    : list string :=
  ["File Organization Report"; "========================="]
  ++ map (λ c, report_line (capitalize c.1)
                 (glob_count f (organized_dir source_dir // c.1))) categories
  ++ [report_line "Miscellaneous"
        (glob_count f (organized_dir source_dir // "misc"))].

Definition report_path (source_dir : Path) : Path :=
  organized_dir source_dir // "organization_report.txt".

(** The run [r] of [main] has returned after an exception raised in state
    [st]: the log file apart, every entry of the file system is as in
    [st]; the log is that of [st] followed by [records], and standard
    output that of [st] followed by the one [line]. *)
Definition caught_at (r : result unit * state) (st : state)
    (records : list (level * string)) (line : string) : Prop :=
  r.1 = Ok ()
  ∧ (∀ q, q ≠ log_file → fs r.2 !! q = fs st !! q)
  ∧ log r.2 = log st ++ records
  ∧ stdout r.2 = stdout st ++ [line].

(** The first move succeeds, the second cannot: [images] is a regular
    file. *)
Definition fs_blocked : gmap Path node :=
  list_to_map (docs_layout ++
    [ (docs // "a.txt", File "A");
      (docs // "b.jpg", File "B");
      (docs // "organized_files" // "images", File "not a folder") ]).

(** ** Notions for the properties of whole runs *)

(** The names of the folders of lines 39-47. *)
Definition layout_names : list string := map fst categories ++ ["misc"].

(** The test of line 72 on the listing entry [n], in file system [f]. *)
Definition considered (source_dir : Path) (f : gmap Path node) (n : string)
    : bool :=
  is_file_in f (source_dir // n) && bool_decide (source_dir // n ≠ log_file).

(** ** The moves of a run

    [shutil.move] puts the file at [real_dst]: inside [dst] when [dst] is a
    directory, at [dst] otherwise. *)
Definition real_dst (f : gmap Path node) (src_path dst : Path) : Path :=
  if is_dir_in f dst then dst // name src_path else dst.








(** A directory where the report is to be written. *)
Definition fs_report_is_dir : gmap Path node :=
  list_to_map (docs_layout ++
    [ (docs // "a.txt", File "A");
      (docs // "organized_files" // "organization_report.txt", Dir) ]).

(** A file system that records the folder [organized_files] of [docs] but
    no entry for [docs] itself: the folders can be made, the listing of
    line 71 cannot be had. *)
Definition fs_source_missing : gmap Path node :=
  {[ docs // "organized_files" := Dir ]}.


#[global] Instance under_dec d q : Decision (under d q).
Proof. unfold under. apply _. Defined.

(** The fields of a [datetime] within their calendar ranges, the year
    below ten thousand. *)
Definition valid_datetime (t : datetime) : Prop :=
  1 ≤ year t < 100 * 100 ∧ 1 ≤ month t ≤ 12 ∧ 1 ≤ day t ≤ 31
  ∧ hour t < 24 ∧ minute t < 60 ∧ second t < 60.

(** What [main] prints after the prompt when nothing was raised
    (lines 140-143). *)
Definition success_lines (organized total : nat) : list string :=
  [ String "010"%char "Organization complete!";
    "Processed " +:+ pretty organized +:+ " of " +:+ pretty total +:+ " files";
    "Check 'organization_report.txt' in the organized_files directory for details";
    "Check 'file_organizer.log' for detailed operation logs" ].

(** A source directory organized for the first time: three files, a
    sub-directory with a file of its own, no [organized_files] yet. *)
Definition fs_first_run : gmap Path node :=
  list_to_map
    [ (Path_of_string ".", Dir);
      (docs, Dir);
      (docs // "a.txt", File "A");
      (docs // "b.jpg", File "B");
      (docs // "c.unknown", File "C");
      (docs // "sub", Dir);
      (docs // "sub" // "inner.txt", File "I") ].

Definition scan_first_run : list string :=
  ["sub"; "a.txt"; "organized_files"; "b.jpg"; "c.unknown"].

(** ** The extension as the specification words it

    "The substring from the last [.] onward, including the dot; a file with
    no extension yields an empty string."  Kept apart from [suffix], which
    is what the script calls, to compare the two. *)
Definition last_dot_onward (name : string) : string :=
  match rfind dot name with
  | Some i => str_drop i name
  | None => EmptyString
  end.

(** ** The shape [YYYYMMDD_HHMMSS] *)



(** ** Facts about strings *)

Lemma lower_ascii_idemp a : lower_ascii (lower_ascii a) = lower_ascii a.
Proof. destruct a as [[] [] [] [] [] [] [] []]; reflexivity. Qed.

Lemma lower_idemp s : lower (lower s) = lower s.
Proof.
  induction s as [|a s IH]; simpl; [done|].
  by rewrite lower_ascii_idemp, IH.
Qed.

Lemma lower_length s : String.length (lower s) = String.length s.
Proof. induction s; simpl; congruence. Qed.

(** ** Classification *)

Lemma get_category_in_no_match cats e :
  (∀ c exts, (c, exts) ∈ cats → lower e ∉ exts) →
  get_category_in cats e = "misc".
Proof.
  induction cats as [|[c exts] rest IH]; simpl; intros H; [done|].
  rewrite bool_decide_eq_false_2.
  - apply IH. intros c' exts' Hel. apply (H c'). by right.
  - apply (H c). by left.
Qed.

(** ** Classification under any case mapping *)

Section Classification.
Variable str_lower : string → string.

Lemma get_category_by_in_first_match pre c exts post e :
  (∀ c' exts', (c', exts') ∈ pre → str_lower e ∉ exts') →
  str_lower e ∈ exts →
  get_category_by_in str_lower (pre ++ (c, exts) :: post) e = c.
Proof.
  intros Hpre Hin. induction pre as [|[c0 exts0] pre IH]; simpl.
  - by rewrite bool_decide_eq_true_2.
  - rewrite bool_decide_eq_false_2.
    + apply IH. intros c' exts' Hel. apply (Hpre c'). by right.
    + apply (Hpre c0). by left.
Qed.

Lemma get_category_by_in_no_match cats e :
  (∀ c exts, (c, exts) ∈ cats → str_lower e ∉ exts) →
  get_category_by_in str_lower cats e = "misc".
Proof.
  induction cats as [|[c exts] rest IH]; simpl; intros H; [done|].
  rewrite bool_decide_eq_false_2.
  - apply IH. intros c' exts' Hel. apply (H c'). by right.
  - apply (H c). by left.
Qed.

Lemma get_category_by_member c exts e :
  (c, exts) ∈ categories → str_lower e ∈ exts →
  get_category_by str_lower e = c.
Proof.
  unfold get_category_by, categories. intros Hc Hin.
  repeat (apply elem_of_cons in Hc as [Hc|Hc];
          [injection Hc as -> ->;
           repeat (apply elem_of_cons in Hin as [Hin|Hin];
                   [simpl; rewrite Hin; reflexivity|]);
           by apply elem_of_nil in Hin|]).
  by apply elem_of_nil in Hc.
Qed.

(** Lower-casing twice is lower-casing once: two inputs with the same
    lower-case form are classified alike. *)
Lemma get_category_by_in_lowered cats e :
  str_lower (str_lower e) = str_lower e →
  get_category_by_in str_lower cats (str_lower e)
  = get_category_by_in str_lower cats e.
Proof.
  intros Hid. induction cats as [|[c exts] rest IH]; simpl; [done|].
  by rewrite Hid, IH.
Qed.
End Classification.

(** The loop of [get_category] is the general loop at [lower]. *)
Lemma get_category_by_lower e : get_category_by lower e = get_category e.
Proof.
  unfold get_category_by, get_category.
  induction categories as [|[c exts] rest IH]; simpl; [done|]. by rewrite IH.
Qed.

(** C1. For every string and whatever [str.lower] does to it,
    [get_category] returns a category whenever the lower-cased input is in
    that category's extension list, the first such category in the order
    documents, images, audio, videos, archives, code, and "misc" when no
    list holds it.  [str.lower] gives a string it leaves unchanged (every
    character of a lower-cased string is its own lower-case form); with
    that, classification is case-insensitive:
    [get_category e = get_category (e.lower())]. *)
Theorem C1_get_category_classifies (str_lower : string → string) :
  (∀ s, str_lower (str_lower s) = str_lower s) →
  (∀ e c exts, (c, exts) ∈ categories → str_lower e ∈ exts →
               get_category_by str_lower e = c)
  ∧ (∀ e pre c exts post,
       categories = pre ++ (c, exts) :: post →
       (∀ c' exts', (c', exts') ∈ pre → str_lower e ∉ exts') →
       str_lower e ∈ exts → get_category_by str_lower e = c)
  ∧ (∀ e, (∀ c exts, (c, exts) ∈ categories → str_lower e ∉ exts) →
          get_category_by str_lower e = "misc")
  ∧ (∀ e, get_category_by str_lower e
          = get_category_by str_lower (str_lower e))
  ∧ map fst categories =
      ["documents"; "images"; "audio"; "videos"; "archives"; "code"].
Proof.
  intros Hid.
  split; [exact (λ e c exts, get_category_by_member str_lower c exts e)|].
  split.
  { intros e pre c exts post Hcat Hpre Hin. unfold get_category_by.
    rewrite Hcat. by apply get_category_by_in_first_match. }
  split; [intros e; apply get_category_by_in_no_match|].
  split; [|reflexivity].
  intros e. unfold get_category_by.
  by rewrite get_category_by_in_lowered.
Qed.

Lemma C1_get_category_classifies_witness :
  get_category_by lower ".JPG" = "images"
  ∧ get_category_by lower ".xyz" = "misc"
  ∧ get_category_by lower ".TaR" = get_category_by lower ".tar".
Proof.
  destruct (C1_get_category_classifies lower lower_idemp) as (H1 & _ & H3 & H4 & _).
  split; [|split].
  - apply (H1 ".JPG" "images"
              [".jpg"; ".jpeg"; ".png"; ".gif"; ".bmp"; ".svg"]).
    + apply (list_elem_of_lookup_2 _ 1). reflexivity.
    + apply (list_elem_of_lookup_2 _ 0). reflexivity.
  - apply H3. intros c exts Hc. unfold categories in Hc.
    repeat (apply elem_of_cons in Hc as [Hc|Hc];
            [injection Hc as -> ->; apply (bool_decide_unpack _);
             vm_compute; exact I|]).
    by apply elem_of_nil in Hc.
  - apply (H4 ".TaR").
Defined.

(** ** Strings: append, [rfind], [str_take] and [str_drop] *)

Lemma str_app_nil_l s : "" +:+ s = s.
Proof. reflexivity. Qed.

Lemma str_app_cons a s1 s2 : String a s1 +:+ s2 = String a (s1 +:+ s2).
Proof. reflexivity. Qed.

Lemma str_app_length s1 s2 :
  String.length (s1 +:+ s2) = String.length s1 + String.length s2.
Proof.
  induction s1 as [|a s1 IH]; rewrite ?str_app_nil_l, ?str_app_cons; simpl;
    [done|by rewrite IH].
Qed.

Lemma str_app_assoc s1 s2 s3 : (s1 +:+ s2) +:+ s3 = s1 +:+ s2 +:+ s3.
Proof.
  induction s1 as [|a s1 IH]; rewrite ?str_app_nil_l, ?str_app_cons;
    [done|by rewrite IH].
Qed.

Lemma str_app_nil_r s : s +:+ "" = s.
Proof.
  induction s as [|a s IH]; rewrite ?str_app_nil_l, ?str_app_cons;
    [done|by rewrite IH].
Qed.


Lemma str_take_length i s :
  i ≤ String.length s → String.length (str_take i s) = i.
Proof.
  revert s. induction i as [|i IH]; intros [|a s]; simpl; try done; [lia|].
  intros H. rewrite IH; lia.
Qed.

Lemma str_drop_app s1 s2 : str_drop (String.length s1) (s1 +:+ s2) = s2.
Proof.
  induction s1 as [|a s1 IH]; rewrite ?str_app_nil_l, ?str_app_cons; simpl;
    [by destruct s2|done].
Qed.

Lemma str_drop_length i s :
  String.length (str_drop i s) = String.length s - i.
Proof.
  revert s. induction i as [|i IH]; intros [|a s]; simpl; try done.
Qed.

Lemma rfind_app c s1 s2 :
  rfind c (s1 +:+ s2) =
    match rfind c s2 with
    | Some i => Some (String.length s1 + i)
    | None => rfind c s1
    end.
Proof.
  induction s1 as [|a s1 IH]; rewrite ?str_app_nil_l, ?str_app_cons; simpl.
  - by destruct (rfind c s2).
  - rewrite IH. by destruct (rfind c s2).
Qed.

Lemma rfind_lt c s i : rfind c s = Some i → i < String.length s.
Proof.
  revert i. induction s as [|a s IH]; simpl; intros i; [done|].
  destruct (rfind c s) as [j|].
  - intros [= <-]. specialize (IH j eq_refl). lia.
  - destruct (Ascii.eqb a c); intros [= <-]. lia.
Qed.

(** The index [rfind] returns holds [c], and [c] does not occur after it. *)
Lemma rfind_Some c s i :
  rfind c s = Some i →
  ∃ rest, str_drop i s = String c rest ∧ rfind c rest = None.
Proof.
  revert i. induction s as [|a s IH]; simpl; intros i; [done|].
  destruct (rfind c s) as [j|] eqn:E.
  - intros [= <-]. simpl. by apply IH.
  - destruct (Ascii.eqb_spec a c) as [->|]; intros [= <-]. simpl. eauto.
Qed.

Lemma rfind_drop c s i :
  rfind c s = Some i → rfind c (str_drop i s) = Some 0.
Proof.
  intros H. destruct (rfind_Some _ _ _ H) as (rest & -> & Hrest).
  simpl. rewrite Hrest. by rewrite Ascii.eqb_refl.
Qed.

(** ** [suffix] and [stem] *)

Lemma cut_index_Some n i :
  cut_index n = Some i →
  rfind dot n = Some i ∧ 0 < i ∧ i < String.length n - 1.
Proof.
  unfold cut_index. destruct (rfind dot n) as [j|]; [|done].
  destruct (0 <? j) eqn:E1; destruct (j <? String.length n - 1) eqn:E2;
    simpl; try done.
  intros [= <-]. apply Nat.ltb_lt in E1, E2. done.
Qed.

Lemma cut_index_intro n i :
  rfind dot n = Some i → 0 < i → i < String.length n - 1 →
  cut_index n = Some i.
Proof.
  intros H H1 H2. unfold cut_index. rewrite H.
  apply Nat.ltb_lt in H1, H2. by rewrite H1, H2.
Qed.

Lemma cut_index_None n :
  cut_index n = None →
  rfind dot n = None ∨ rfind dot n = Some 0
  ∨ (rfind dot n = Some (String.length n - 1) ∧ 0 < String.length n - 1).
Proof.
  unfold cut_index. destruct (rfind dot n) as [j|] eqn:E; [|by left].
  pose proof (rfind_lt _ _ _ E).
  destruct (Nat.ltb_spec 0 j); destruct (Nat.ltb_spec j (String.length n - 1));
    simpl; try done; intros _.
  - right; right. split; [f_equal|]; lia.
  - right; left. f_equal; lia.
  - right; left. f_equal; lia.
Qed.


(** ** Timestamps *)

Lemma digit_cases n :
  digit n ∈ ["0"; "1"; "2"; "3"; "4"; "5"; "6"; "7"; "8"; "9"]%char.
Proof.
  unfold digit. pose proof (Nat.mod_upper_bound n 10 ltac:(lia)) as H.
  destruct (n mod 10) as [|[|[|[|[|[|[|[|[|[|k]]]]]]]]]]; simpl;
    [repeat ((by left) || right)..|lia].
Qed.


Lemma digit_not_dot n : Ascii.eqb (digit n) dot = false.
Proof.
  pose proof (digit_cases n) as H.
  repeat (apply elem_of_cons in H as [->|H]; [reflexivity|]).
  by apply elem_of_nil in H.
Qed.


Lemma strftime_length t : String.length (strftime t) = 15.
Proof. cbv [strftime pad4 pad2 String.append String.length]. reflexivity. Qed.

Lemma strftime_no_dot t : rfind dot (strftime t) = None.
Proof.
  cbv [strftime pad4 pad2 String.append rfind].
  rewrite !digit_not_dot. reflexivity.
Qed.

(** The text inserted between stem and extension on a collision. *)
Lemma infix_no_dot t : rfind dot ("_" +:+ strftime t) = None.
Proof. rewrite rfind_app, strftime_no_dot. reflexivity. Qed.

Lemma infix_length t : String.length ("_" +:+ strftime t) = 16.
Proof. by rewrite str_app_length, strftime_length. Qed.

(** ** The extension of a renamed file *)

Lemma suffix_renamed_cut n i t :
  cut_index n = Some i →
  suffix (stem n +:+ "_" +:+ strftime t +:+ suffix n) = suffix n.
Proof.
  intros Hc. destruct (cut_index_Some _ _ Hc) as (Hr & H0 & Hlt).
  unfold stem at 1, suffix at 2 3. rewrite Hc.
  set (st := str_take i n). set (sf := str_drop i n).
  assert (String.length st = i) as Hst by (apply str_take_length; lia).
  assert (String.length sf = String.length n - i) as Hsf
    by apply str_drop_length.
  assert (rfind dot sf = Some 0) as Hd by by apply rfind_drop.
  pose proof (infix_length t) as Hl. pose proof (infix_no_dot t) as Hn.
  rewrite <- (str_app_assoc "_"), <- str_app_assoc.
  set (pre := st +:+ "_" +:+ strftime t).
  assert (String.length pre = i + 16) as Hpre
    by (unfold pre; rewrite str_app_length; lia).
  unfold suffix.
  rewrite (cut_index_intro _ (String.length pre + 0)).
  - rewrite Nat.add_0_r. apply str_drop_app.
  - by rewrite rfind_app, Hd.
  - lia.
  - rewrite str_app_length. lia.
Qed.

Lemma rfind_renamed_nocut n t :
  rfind dot (n +:+ "_" +:+ strftime t +:+ "") = rfind dot n.
Proof.
  rewrite str_app_nil_r, rfind_app.
  pose proof (infix_no_dot t) as Hn. by rewrite Hn.
Qed.

(** Without a cut the new name has one only when the old name ended in a
    dot. *)
Lemma suffix_renamed_nocut n t :
  cut_index n = None →
  rfind dot n ≠ Some (String.length n - 1) →
  suffix (stem n +:+ "_" +:+ strftime t +:+ suffix n) = "".
Proof.
  intros Hc Hend. unfold stem, suffix at 2. rewrite Hc.
  unfold suffix, cut_index. rewrite rfind_renamed_nocut.
  destruct (cut_index_None _ Hc) as [E|[E|[E ?]]]; [| |done];
    by rewrite E.
Qed.

Lemma suffix_renamed n t :
  rfind dot n ≠ Some (String.length n - 1) →
  suffix (stem n +:+ "_" +:+ strftime t +:+ suffix n) = suffix n.
Proof.
  intros Hend. destruct (cut_index n) as [i|] eqn:Hc.
  - by apply (suffix_renamed_cut n i).
  - rewrite suffix_renamed_nocut by done. unfold suffix. by rewrite Hc.
Qed.


(** Every extension of the table has at most five characters. *)
Lemma get_category_long e : 5 < String.length e → get_category e = "misc".
Proof.
  intros Hlen. apply get_category_in_no_match. intros c exts Hc Hin.
  unfold categories in Hc.
  repeat (apply elem_of_cons in Hc as [Hc|Hc];
          [injection Hc as -> ->;
           repeat (apply elem_of_cons in Hin as [Hin|Hin];
                   [apply (f_equal String.length) in Hin;
                    rewrite lower_length in Hin; simpl in Hin; lia|]);
           by apply elem_of_nil in Hin|]).
  by apply elem_of_nil in Hc.
Qed.

Lemma get_category_renamed n t :
  get_category (suffix (stem n +:+ "_" +:+ strftime t +:+ suffix n))
  = get_category (suffix n).
Proof.
  destruct (decide (rfind dot n = Some (String.length n - 1))) as [E|E];
    [|by rewrite suffix_renamed].
  assert (cut_index n = None) as Hc.
  { unfold cut_index. rewrite E.
    destruct (Nat.ltb_spec (String.length n - 1) (String.length n - 1));
      [lia|]. by rewrite andb_false_r. }
  unfold stem, suffix at 2 3. rewrite Hc.
  unfold suffix.
  destruct (cut_index (n +:+ _)) as [i|] eqn:Hc'; [|done].
  apply cut_index_Some in Hc' as (Hr & H0 & Hlt).
  rewrite rfind_renamed_nocut, E in Hr. injection Hr as <-.
  rewrite get_category_long; [done|].
  rewrite str_drop_length, str_app_nil_r, str_app_length, infix_length.
  pose proof (rfind_lt _ _ _ E). lia.
Qed.

(** ** Paths *)

Lemma name_child d n : name (d // n) = n.
Proof. unfold name, child. simpl. by rewrite last_snoc. Qed.

Lemma parent_child d n : parent (d // n) = d.
Proof.
  unfold parent, child. simpl. rewrite removelast_last. by destruct d.
Qed.

Lemma child_inj d n m : d // n = d // m → n = m.
Proof. intros [= H]. by apply app_inv_head in H as [= ->]. Qed.

Lemma child_parts d n : parts (d // n) = parts d ++ [n].
Proof. reflexivity. Qed.

Lemma renamed_child d n t :
  renamed d (d // n) t = d // (stem n +:+ "_" +:+ strftime t +:+ suffix n).
Proof. unfold renamed. by rewrite name_child. Qed.


(** C5 (as amended). When the last [.] of a file name is neither its first
    nor its last character, the extension used for classification is the
    substring from that dot onward, the dot included and no further dot in
    it; for every other name (no dot, or the last dot first or last) it is
    the empty string, which classifies as "misc". *)
Theorem C5_extension_of_name (n : string) :
  (∀ i, rfind dot n = Some i → 0 < i → i < String.length n - 1 →
        suffix n = last_dot_onward n ∧ suffix n = str_drop i n
        ∧ ∃ rest, suffix n = String dot rest ∧ rfind dot rest = None)
  ∧ (rfind dot n = None → suffix n = "" ∧ last_dot_onward n = "")
  ∧ (rfind dot n = Some 0 ∨ rfind dot n = Some (String.length n - 1) →
     suffix n = "")
  ∧ get_category "" = "misc".
Proof.
  split; [|split; [|split; [|reflexivity]]].
  - intros i Hr H0 Hlt. unfold suffix, last_dot_onward.
    rewrite (cut_index_intro n i) by done. rewrite Hr.
    split; [done|split; [done|]]. by apply rfind_Some.
  - intros Hr. unfold suffix, last_dot_onward, cut_index. by rewrite Hr.
  - intros [Hr|Hr]; unfold suffix, cut_index; rewrite Hr; [done|].
    destruct (Nat.ltb_spec (String.length n - 1) (String.length n - 1));
      [lia|]. by rewrite andb_false_r.
Qed.

Lemma C5_extension_of_name_witness :
  suffix "a.tar.gz" = ".gz" ∧ suffix "notes" = "" ∧ suffix ".bashrc" = "".
Proof.
  destruct (C5_extension_of_name "a.tar.gz") as (H1 & _).
  destruct (C5_extension_of_name "notes") as (_ & H2 & _).
  destruct (C5_extension_of_name ".bashrc") as (_ & _ & H3 & _).
  split; [|split].
  - destruct (H1 5) as (_ & -> & _); [reflexivity|lia|simpl; lia|reflexivity].
  - apply H2. reflexivity.
  - apply H3. left. reflexivity.
Defined.

(** C5 as stated fails: for the name [.gz] the substring from the last dot
    onward is [.gz], an archive extension, while the script's extension is
    empty and the file is classified "misc". *)
Lemma C5_counterexample :
  last_dot_onward ".gz" = ".gz" ∧ suffix ".gz" = ""
  ∧ get_category (last_dot_onward ".gz") = "archives"
  ∧ get_category (suffix ".gz") = "misc".
Proof. repeat split. Qed.

(** C10 (as amended). A file renamed on a collision classifies to the same
    category as under its original name; its extension is the original one
    whenever the original name does not end in a dot. *)
Theorem C10_rename_keeps_category (d : Path) (n : string) (t : datetime) :
  get_category (suffix (name (renamed d (d // n) t)))
    = get_category (suffix n)
  ∧ (rfind dot n ≠ Some (String.length n - 1) →
     suffix (name (renamed d (d // n) t)) = suffix n).
Proof.
  rewrite renamed_child, name_child. split.
  - apply get_category_renamed.
  - apply suffix_renamed.
Qed.

Lemma C10_rename_keeps_category_witness :
  suffix (name (renamed (Path_of_string "o/documents")
                        (Path_of_string "o/documents" // "a.txt")
                        (mkDatetime 2024 1 1 12 0 0))) = ".txt".
Proof.
  apply (C10_rename_keeps_category (Path_of_string "o/documents") "a.txt").
  simpl. discriminate.
Defined.

(** C10 as stated fails for a name ending in a dot: [a.] has the empty
    extension, the renamed file has the extension [._20240101_120000]. *)
Lemma C10_counterexample :
  suffix "a." = ""
  ∧ suffix (name (renamed (Path_of_string "o/misc")
                          (Path_of_string "o/misc" // "a.")
                          (mkDatetime 2024 1 1 12 0 0)))
    = "._20240101_120000".
Proof. split; reflexivity. Qed.

(** ** [create_directories] *)

Lemma exists_in_true f p : exists_in f p = true ↔ is_Some (f !! p).
Proof. unfold exists_in. apply bool_decide_eq_true. Qed.

Lemma exists_in_false f p : exists_in f p = false ↔ f !! p = None.
Proof.
  unfold exists_in. rewrite bool_decide_eq_false. symmetry.
  apply eq_None_not_Some.
Qed.

Lemma exists_in_mono f f' p :
  f ⊆ f' → exists_in f p = true → exists_in f' p = true.
Proof.
  rewrite !exists_in_true. intros Hsub [x Hx]. exists x.
  by eapply lookup_weaken.
Qed.

Lemma ensure_dir_run p st :
  ensure_dir p st =
    if exists_in (fs st) p then (Ok (), st)
    else if is_dir_in (fs st) (parent p)
         then (Ok (), set_fs (<[p := Dir]> (fs st)) st)
         else (Raise (parent_error (fs st) p), st).
Proof.
  unfold ensure_dir, mbind, M_bind, path_exists, mkdir. simpl.
  destruct (exists_in (fs st) p) eqn:E; [reflexivity|]. by rewrite E.
Qed.

Lemma ensure_dirs_cons p ps st :
  ensure_dirs (p :: ps) st =
    match ensure_dir p st with
    | (Ok _, st') => ensure_dirs ps st'
    | (Raise e, st') => (Raise e, st')
    end.
Proof. reflexivity. Qed.

(** A pass over the directories only adds entries, and a second pass over
    the resulting file system changes nothing and ends the same way. *)
Lemma ensure_dirs_idem ps st r st' :
  ensure_dirs ps st = (r, st') →
  fs st ⊆ fs st'
  ∧ ∀ st2, fs st2 = fs st' → ensure_dirs ps st2 = (r, st2).
Proof.
  revert st. induction ps as [|p ps IH]; intros st.
  - intros [= <- <-]. split; [done|]. intros st2 _. reflexivity.
  - rewrite ensure_dirs_cons, ensure_dir_run.
    destruct (exists_in (fs st) p) eqn:Hex.
    + intros Hrun. destruct (IH _ Hrun) as [Hsub Hagain]. split; [done|].
      intros st2 Heq. rewrite ensure_dirs_cons, ensure_dir_run.
      rewrite Heq, (exists_in_mono _ _ _ Hsub Hex). by apply Hagain.
    + destruct (is_dir_in (fs st) (parent p)) eqn:Hpar.
      * intros Hrun. destruct (IH _ Hrun) as [Hsub Hagain]. simpl in Hsub.
        apply exists_in_false in Hex. split.
        { etrans; [|exact Hsub]. by apply insert_subseteq. }
        intros st2 Heq. rewrite ensure_dirs_cons, ensure_dir_run, Heq.
        rewrite (exists_in_mono (<[p:=Dir]> (fs st)) _ _ Hsub).
        -- by apply Hagain.
        -- apply exists_in_true. rewrite lookup_insert_eq. eauto.
      * intros [= <- <-]. split; [done|].
        intros st2 Heq. rewrite ensure_dirs_cons, ensure_dir_run, Heq.
        by rewrite Hex, Hpar.
Qed.

(** What [create_directories] returns, from the pass over [layout]. *)
Lemma create_directories_run src st :
  create_directories src st =
    match ensure_dirs (layout src) st with
    | (Ok _, st') =>
        logging_info "Directory structure created successfully" st'
    | (Raise e, st') =>
        (Raise e,
         (logging_error ("Error creating directories: " +:+ exn_str e) st').2)
    end.
Proof.
  unfold create_directories, try_except, mbind, M_bind.
  by destruct (ensure_dirs (layout src) st) as [[[]|e] st'].
Qed.

(** C7. Calling [create_directories] twice in a row leaves the file system
    exactly as one call does and the second call ends as the first did, so
    it raises nothing when the first raised nothing; every entry present
    before the call, directory or file with its content, is still there. *)
Theorem C7_create_directories_idempotent (source_dir : Path) (st : state) :
  let once := create_directories source_dir st in
  let twice := create_directories source_dir once.2 in
  fs twice.2 = fs once.2
  ∧ twice.1 = once.1
  ∧ (once.1 = Ok () → twice.1 = Ok ())
  ∧ fs st ⊆ fs once.2
  ∧ ∀ p x, fs st !! p = Some x → fs twice.2 !! p = Some x.
Proof.
  intros once twice.
  assert (fs twice.2 = fs once.2 ∧ twice.1 = once.1 ∧ fs st ⊆ fs once.2)
    as (H1 & H2 & H3).
  { unfold twice, once. rewrite !create_directories_run.
    destruct (ensure_dirs (layout source_dir) st) as [r st'] eqn:Hrun.
    destruct (ensure_dirs_idem _ _ _ _ Hrun) as [Hsub Hagain].
    destruct r as [[]|e]; unfold logging_info, logging_error;
      cbn [fst snd]; rewrite Hagain by done; done. }
  split; [done|]. split; [done|]. split; [by rewrite H2|].
  split; [done|]. intros p x Hp. rewrite H1. by eapply lookup_weaken.
Qed.

Lemma C7_create_directories_idempotent_witness :
  (create_directories docs
     (create_directories docs (fresh_state fs_collision)).2).1 = Ok ().
Proof.
  destruct (C7_create_directories_idempotent docs (fresh_state fs_collision))
    as (_ & _ & H & _).
  apply H. vm_compute. reflexivity.
Defined.

(** ** Results *)

Lemma result_state_eq {A} (r : result A * state) (x : result A) :
  r.1 = x → r = (x, r.2).
Proof. destruct r. cbn. by intros ->. Qed.

(** ** [shutil.move] *)

Lemma move_Ok src dst st st' :
  move src dst st = (Ok (), st') →
  ∃ c, fs st !! src = Some (File c) ∧
    ((is_dir_in (fs st) dst = true ∧ fs st !! (dst // name src) = None
      ∧ st' = set_fs (<[dst // name src := File c]> (delete src (fs st))) st)
     ∨ (is_dir_in (fs st) dst = false
        ∧ is_dir_in (fs st) (parent dst) = true
        ∧ st' = set_fs (<[dst := File c]> (delete src (fs st))) st)).
Proof.
  unfold move. destruct (fs st !! src) as [[c|]|] eqn:Hsrc; try done.
  destruct (is_dir_in (fs st) dst) eqn:Hd.
  - destruct (exists_in (fs st) (dst // name src)) eqn:Hex; [done|].
    intros [= <-]. exists c. split; [done|]. left.
    by apply exists_in_false in Hex.
  - destruct (is_dir_in (fs st) (parent dst)) eqn:Hp; [|done].
    intros [= <-]. exists c. split; [done|]. by right.
Qed.

(** A failed move changes nothing. *)
Lemma move_Raise src dst st e st' :
  move src dst st = (Raise e, st') → st' = st.
Proof.
  unfold move. destruct (fs st !! src) as [[c|]|]; try (by intros [= _ <-]).
  destruct (is_dir_in (fs st) dst).
  - destruct (exists_in _ _); [by intros [= _ <-]|done].
  - destruct (is_dir_in _ _); [done|by intros [= _ <-]].
Qed.

(** ** One iteration of the loop *)

Lemma organize_one_run src now i n st :
  organize_one src now i (src // n) st =
    if is_file_in (fs st) (src // n) && bool_decide (src // n ≠ log_file)
    then
      match move (src // n) (target src (fs st) n (now i))
                 (count_total st).2 with
      | (Ok _, st') =>
          logging_info ("Moved '" +:+ n +:+ "' to "
                        +:+ get_category (suffix n) +:+ " folder")
                       (count_organized st').2
      | (Raise e, st') => (Raise e, st')
      end
    else (Ok (), st).
Proof.
  unfold organize_one, mbind, M_bind, is_file, path_exists.
  rewrite !name_child.
  destruct (is_file_in (fs st) (src // n) && bool_decide (src // n ≠ log_file));
    [|reflexivity].
  unfold target, renamed_of, dest_of, category_dir. cbn [count_total fst snd fs].
  destruct (exists_in (fs st) _); destruct (move _ _ _) as [[[]|e] st'];
    reflexivity.
Qed.

Lemma organize_loop_cons src now i p l st :
  organize_loop src now i (p :: l) st =
    match organize_one src now i p st with
    | (Ok _, st') => organize_loop src now (S i) l st'
    | (Raise e, st') => (Raise e, st')
    end.
Proof. reflexivity. Qed.

(** ** Where paths lie *)

Lemma parts_length_child d n : length (parts (d // n)) = S (length (parts d)).
Proof. rewrite child_parts, length_app. simpl. lia. Qed.

Lemma dest_of_depth src n :
  length (parts (dest_of src n)) = 3 + length (parts src).
Proof.
  unfold dest_of, category_dir, organized_dir.
  by rewrite !parts_length_child.
Qed.

Lemma renamed_of_depth src n t :
  length (parts (renamed_of src n t)) = 3 + length (parts src).
Proof.
  unfold renamed_of, renamed, category_dir, organized_dir.
  by rewrite !parts_length_child.
Qed.

Lemma path_depth_neq (p q : Path) :
  length (parts p) ≠ length (parts q) → p ≠ q.
Proof. intros H ->. done. Qed.

Lemma under_refl d : under d d.
Proof. split; [done|]. by exists []; rewrite app_nil_r. Qed.

Lemma under_child d q n : under d q → under d (q // n).
Proof.
  intros [Hr [k Hk]]. split; [done|].
  exists (k ++ [n]). rewrite child_parts, Hk. by rewrite app_assoc.
Qed.

Lemma under_dest_of src n : under (organized_dir src) (dest_of src n).
Proof. unfold dest_of, category_dir. do 2 apply under_child. apply under_refl. Qed.

Lemma under_renamed_of src n t :
  under (organized_dir src) (renamed_of src n t).
Proof.
  unfold renamed_of, renamed, category_dir.
  do 2 apply under_child. apply under_refl.
Qed.

(** ** What one iteration does to the file system and the counters *)

Section Step.
Variable src : Path.
Variable now : nat → datetime.



Lemma organize_one_eq i n st st' :
  organize_one src now i (src // n) st = (Ok (), st') →
  organized_files st = total_files st →
  organized_files st' = total_files st'.
Proof.
  rewrite organize_one_run. destruct (_ && _); [|by intros [= <-]].
  destruct (move _ _ _) as [[[]|e] st1] eqn:Hmove; [|done].
  apply move_Ok in Hmove as (c & _ & [(_ & _ & ->)|(_ & _ & ->)]);
    intros [= <-] Heq; cbn; lia.
Qed.

End Step.

(** ** The loop *)

Section Loop.
Variable src : Path.
Variable now : nat → datetime.

Local Abbreviation loop i names :=
  (organize_loop src now i (map (child src) names)).


Lemma organize_loop_eq names i st st' :
  loop i names st = (Ok (), st') →
  organized_files st = total_files st →
  organized_files st' = total_files st'.
Proof.
  revert i st. induction names as [|n names IH]; intros i st.
  - by intros [= <-].
  - cbn [map]. rewrite organize_loop_cons.
    destruct (organize_one _ _ _ _ _) as [[[]|e] st1] eqn:Hone; [|done].
    intros Hrun Heq. eapply IH; [done|]. by eapply organize_one_eq.
Qed.

End Loop.

(** ** [organize_files] *)

Lemma ensure_dirs_frame ps st r st' :
  ensure_dirs ps st = (r, st') →
  log st' = log st ∧ stdout st' = stdout st
  ∧ total_files st' = total_files st
  ∧ organized_files st' = organized_files st.
Proof.
  revert st. induction ps as [|p ps IH]; intros st.
  - by intros [= <- <-].
  - rewrite ensure_dirs_cons, ensure_dir_run.
    destruct (exists_in _ _); [apply IH|].
    destruct (is_dir_in _ _); [|by intros [= <- <-]].
    intros Hrun. by apply IH in Hrun.
Qed.

Lemma create_directories_frame src st :
  fs st ⊆ fs (create_directories src st).2
  ∧ total_files (create_directories src st).2 = total_files st
  ∧ organized_files (create_directories src st).2 = organized_files st.
Proof.
  rewrite create_directories_run.
  destruct (ensure_dirs _ _) as [r st'] eqn:Hrun.
  destruct (ensure_dirs_idem _ _ _ _ Hrun) as [Hsub _].
  destruct (ensure_dirs_frame _ _ _ _ Hrun) as (_ & _ & Ht & Ho).
  by destruct r as [[]|e].
Qed.

Lemma organize_files_run src scan now st :
  organize_files src scan now st =
    match create_directories src (reset_counts st).2 with
    | (Raise e, st1) => organize_failed e st1
    | (Ok _, st1) =>
        match iterdir scan src st1 with
        | (Raise e, st2) => organize_failed e st2
        | (Ok entries, st2) =>
            match organize_loop src now 0 entries st2 with
            | (Raise e, st3) => organize_failed e st3
            | (Ok _, st3) =>
                (Ok (organized_files st3, total_files st3),
                 (logging_info
                    ("Organization complete. Processed "
                     +:+ pretty (organized_files st3) +:+ " of "
                     +:+ pretty (total_files st3) +:+ " files") st3).2)
            end
        end
    end.
Proof.
  unfold organize_files, try_except, mbind, M_bind, organize_failed.
  cbn [reset_counts fst snd].
  destruct (create_directories _ _) as [[[]|e] st1]; [|reflexivity].
  destruct (iterdir _ _ _) as [[entries|e] st2]; [|reflexivity].
  destruct (organize_loop _ _ _ _ _) as [[[]|e] st3]; reflexivity.
Qed.

Lemma iterdir_Ok scan d st entries st' :
  iterdir scan d st = (Ok entries, st') →
  entries = map (child d) scan ∧ st' = st.
Proof.
  unfold iterdir. destruct (fs st !! d) as [[c|]|]; try done.
  by intros [= <- <-].
Qed.

Lemma iterdir_Raise scan d st e st' :
  iterdir scan d st = (Raise e, st') → st' = st.
Proof.
  unfold iterdir. destruct (fs st !! d) as [[c|]|]; by intros [= <-].
Qed.



(** ** Collisions *)

Lemma parent_renamed_of src n t :
  parent (renamed_of src n t) = category_dir src n.
Proof. unfold renamed_of, renamed. apply parent_child. Qed.

Lemma renamed_of_name src n t :
  renamed_of src n t
  = category_dir src n // (stem n +:+ "_" +:+ strftime t +:+ suffix n).
Proof. unfold renamed_of, dest_of. apply renamed_child. Qed.






(** ** Conservation *)


(** ** The log file *)

(** The guard of line 72 holds back a listing entry only when the source
    directory is the current directory, written [.], and the entry is
    [file_organizer.log]. *)
Lemma log_guard_scope src n :
  src // n = log_file ↔ src = Path_of_string "." ∧ n = "file_organizer.log".
Proof.
  change log_file with (mkPath "" ["file_organizer.log"]).
  change (Path_of_string ".") with (mkPath "" []).
  destruct src as [r ps]. unfold child. cbn [root parts]. split.
  - intros [= -> Hps]. destruct ps as [|p [|p' ps]]; cbn in Hps.
    + by injection Hps as ->.
    + by injection Hps.
    + by injection Hps.
  - by intros [[= -> ->] ->].
Qed.

(** C4, on the code. The path of the entry is compared with the path
    [file_organizer.log], so the log file is held back only when the source
    directory is given as [.].  With the source directory given as [docs],
    the regular file [docs/file_organizer.log] is counted and moved to
    [misc]; with [.] the same file is skipped. *)
Theorem C4_log_file_moved :
  let scan := ["file_organizer.log"; "organized_files"] in
  let run := organize_files docs scan at_noon (fresh_state (fs_with_log docs)) in
  let here := Path_of_string "." in
  let run_here :=
    organize_files here scan at_noon (fresh_state (fs_with_log here)) in
  run.1 = Ok (1, 1)
  ∧ fs run.2 !! (docs // "file_organizer.log") = None
  ∧ fs run.2 !! (organized_dir docs // "misc" // "file_organizer.log")
    = Some (File "2024-01-01 12:00:00 - x")
  ∧ run_here.1 = Ok (0, 0)
  ∧ fs run_here.2 !! (here // "file_organizer.log")
    = Some (File "2024-01-01 12:00:00 - x")
  ∧ ∀ src, src ≠ here → src // "file_organizer.log" ≠ log_file.
Proof.
  repeat split; try by vm_compute.
  intros src Hsrc Heq. apply log_guard_scope in Heq as [? _]. done.
Qed.

(** ** The report *)

Lemma glob_len_run d st : glob_len d st = (Ok (glob_count (fs st) d), st).
Proof. reflexivity. Qed.

Lemma report_categories_run src cats st :
  report_categories src cats st =
    (Ok (map (λ c, report_line (capitalize c.1)
                     (glob_count (fs st) (organized_dir src // c.1))) cats),
     st).
Proof.
  induction cats as [|[c exts] cats IH]; [reflexivity|].
  cbn [report_categories map]. unfold mbind, M_bind.
  rewrite glob_len_run, IH. reflexivity.
Qed.

Lemma report_lines_run src st :
  report_lines src st = (Ok (expected_report src (fs st)), st).
Proof.
  unfold report_lines, mbind, M_bind.
  rewrite report_categories_run, glob_len_run. reflexivity.
Qed.

Lemma generate_report_run src st :
  generate_report src st =
    match write_text (report_path src)
            (join_lines (expected_report src (fs st))) st with
    | (Ok _, st') => logging_info "Report generated successfully" st'
    | (Raise e, st') =>
        (Raise e,
         (logging_error ("Error generating report: " +:+ exn_str e) st').2)
    end.
Proof.
  unfold generate_report, try_except, mbind, M_bind.
  rewrite report_lines_run. unfold report_path.
  by destruct (write_text _ _ _) as [[[]|e] st'].
Qed.

Lemma write_text_Ok p text st st' :
  write_text p text st = (Ok (), st') →
  st' = set_fs (<[p := File text]> (fs st)) st.
Proof.
  unfold write_text. destruct (is_dir_in (fs st) p); [done|].
  destruct (is_dir_in (fs st) (parent p)); [|done]. by intros [= <-].
Qed.

Lemma write_text_Raise p text st e st' :
  write_text p text st = (Raise e, st') → st' = st.
Proof.
  unfold write_text. destruct (is_dir_in (fs st) p); [by intros [= _ <-]|].
  destruct (is_dir_in (fs st) (parent p)); [done|by intros [= _ <-]].
Qed.

(** Without sub-directories the entries of a folder are its regular
    files. *)
Lemma files_of_entries f d :
  map_Forall (λ _ x, x ≠ Dir) (entries_of f d) →
  files_of f d = entries_of f d.
Proof.
  intros Hall. unfold files_of, entries_of.
  apply map_filter_ext. intros k x Hk. cbn. split; [tauto|].
  intros Hchild. split; [done|].
  apply (Hall k x). apply map_lookup_filter_Some. done.
Qed.

(** C8 (as amended). The number in each line of the report, for the six
    categories in table order and then for misc, is the number of entries
    directly inside that category's folder when the report is made,
    sub-directories counted like files (0 when the folder is no
    directory); it is the number of regular files there when the folder
    holds no sub-directory.  A report that is written holds these lines. *)
Theorem C8_report_counts (src : Path) (st : state) :
  (report_lines src st).1 = Ok (expected_report src (fs st))
  ∧ (∀ d, is_dir_in (fs st) d = true →
          glob_count (fs st) d = size (entries_of (fs st) d))
  ∧ (∀ d, is_dir_in (fs st) d = false → glob_count (fs st) d = 0)
  ∧ (∀ d, is_dir_in (fs st) d = true →
          map_Forall (λ _ x, x ≠ Dir) (entries_of (fs st) d) →
          glob_count (fs st) d = size (files_of (fs st) d))
  ∧ ((generate_report src st).1 = Ok () →
     fs (generate_report src st).2 !! report_path src
     = Some (File (join_lines (expected_report src (fs st))))).
Proof.
  split; [by rewrite report_lines_run|].
  split; [by intros d Hd; unfold glob_count; rewrite Hd|].
  split; [by intros d Hd; unfold glob_count; rewrite Hd|].
  split.
  - intros d Hd Hall. unfold glob_count. rewrite Hd.
    by rewrite files_of_entries.
  - rewrite generate_report_run.
    destruct (write_text _ _ _) as [[[]|e] st'] eqn:Hw; [|done].
    intros _. apply write_text_Ok in Hw as ->.
    cbn. by rewrite lookup_insert_eq.
Qed.

Lemma C8_report_counts_witness :
  glob_count fs_collision (organized_dir docs // "documents")
  = size (files_of fs_collision (organized_dir docs // "documents"))
  ∧ fs (generate_report docs (fresh_state fs_collision)).2 !! report_path docs
    = Some (File (join_lines (expected_report docs fs_collision))).
Proof.
  destruct (C8_report_counts docs (fresh_state fs_collision))
    as (_ & _ & _ & H4 & H5).
  split.
  - apply H4; [reflexivity|].
    apply (bool_decide_unpack _). vm_compute. exact I.
  - apply H5. vm_compute. reflexivity.
Defined.

(** C8 as stated fails: the folder [documents] holds one sub-directory and
    no regular file, before and after a run of [main], and the report
    written by that run says [Documents: 1 files]. *)
Lemma C8_counterexample :
  let documents := organized_dir docs // "documents" in
  let result := main "docs" ["organized_files"] at_noon (fresh_state fs_subfolder) in
  let report :=
    ["File Organization Report"; "=========================";
     "Documents: 1 files"; "Images: 0 files"; "Audio: 0 files";
     "Videos: 0 files"; "Archives: 0 files"; "Code: 0 files";
     "Miscellaneous: 0 files"] in
  size (files_of fs_subfolder documents) = 0
  ∧ (report_lines docs (fresh_state fs_subfolder)).1 = Ok report
  ∧ result.1 = Ok ()
  ∧ size (files_of (fs result.2) documents) = 0
  ∧ fs result.2 !! report_path docs = Some (File (join_lines report)).
Proof. repeat split; by vm_compute. Qed.

(** ** Exceptions *)

Lemma generate_report_Raise src st e st' :
  generate_report src st = (Raise e, st') →
  st' = (logging_error ("Error generating report: " +:+ exn_str e) st).2.
Proof.
  rewrite generate_report_run.
  destruct (write_text _ _ _) as [[[]|e1] st1] eqn:Hw; [done|].
  apply write_text_Raise in Hw as ->. by intros [= <- <-].
Qed.

(** Nothing but [main] writes to standard output. *)
Lemma organize_one_stdout src now i n st :
  stdout (organize_one src now i (src // n) st).2 = stdout st.
Proof.
  rewrite organize_one_run. destruct (_ && _); [|done].
  destruct (move _ _ _) as [[[]|e] st'] eqn:Hmove.
  - by apply move_Ok in Hmove as (c & _ & [(_ & _ & ->)|(_ & _ & ->)]).
  - by apply move_Raise in Hmove as ->.
Qed.

Lemma organize_loop_stdout src now names i st :
  stdout (organize_loop src now i (map (child src) names) st).2 = stdout st.
Proof.
  revert i st. induction names as [|n names IH]; intros i st; [done|].
  cbn [map]. rewrite organize_loop_cons.
  pose proof (organize_one_stdout src now i n st) as Hp.
  destruct (organize_one _ _ _ _ _) as [[[]|e] st1]; [|done].
  by rewrite IH.
Qed.

Lemma create_directories_stdout src st :
  stdout (create_directories src st).2 = stdout st.
Proof.
  rewrite create_directories_run.
  destruct (ensure_dirs _ _) as [r st'] eqn:Hrun.
  destruct (ensure_dirs_frame _ _ _ _ Hrun) as (_ & Hs & _).
  by destruct r as [[]|e].
Qed.

Lemma organize_files_stdout src scan now st :
  stdout (organize_files src scan now st).2 = stdout st.
Proof.
  rewrite organize_files_run.
  pose proof (create_directories_stdout src (reset_counts st).2) as Hc.
  destruct (create_directories _ _) as [[[]|e] st1]; [|done].
  destruct (iterdir _ _ _) as [[entries|e] st2] eqn:Hit.
  2: { by apply iterdir_Raise in Hit as ->. }
  apply iterdir_Ok in Hit as [-> ->].
  pose proof (organize_loop_stdout src now scan 0 st1) as Hl.
  destruct (organize_loop _ _ _ _ _) as [[[]|e] st3]; cbn in *; congruence.
Qed.

Lemma main_run user_input scan now st :
  let src := Path_of_string user_input in
  main user_input scan now st =
    match organize_files src scan now
            (print "Enter the directory path to organize: " st).2 with
    | (Raise e, st1) => (Ok (), main_failed e st1)
    | (Ok c, st1) =>
        match generate_report src st1 with
        | (Raise e, st2) => (Ok (), main_failed e st2)
        | (Ok _, st2) =>
            (Ok (),
             mkState (fs st2) (log st2)
               (stdout st2 ++
                [String "010"%char "Organization complete!";
                 "Processed " +:+ pretty c.1 +:+ " of " +:+ pretty c.2
                 +:+ " files";
                 "Check 'organization_report.txt' in the organized_files directory for details";
                 "Check 'file_organizer.log' for detailed operation logs"])
               (total_files st2) (organized_files st2))
        end
    end.
Proof.
  intros src. unfold main, try_except, mbind, M_bind, main_failed.
  cbn [print fst snd]. fold src.
  destruct (organize_files _ _ _ _) as [[c|e] st1]; [|reflexivity].
  destruct (generate_report _ _) as [[[]|e] st2]; [|reflexivity].
  cbn. by rewrite <- !app_assoc.
Qed.

(** ** The methods over given operations *)

Lemma methods_by_model user_input scan now :
  main_by mkdir move write_text user_input scan now = main user_input scan now.
Proof. reflexivity. Qed.

Lemma ensure_dirs_by_cons mk p ps st :
  ensure_dirs_by mk (p :: ps) st =
    match ensure_dir_by mk p st with
    | (Ok _, st') => ensure_dirs_by mk ps st'
    | (Raise e, st') => (Raise e, st')
    end.
Proof. reflexivity. Qed.

(** The pass over the directories stops at the first [mkdir] that raises,
    in the state that [mkdir] leaves. *)
Lemma ensure_dirs_by_fails mk pre p post st e :
  (ensure_dirs_by mk pre st).1 = Ok () →
  exists_in (fs (ensure_dirs_by mk pre st).2) p = false →
  (mk p (ensure_dirs_by mk pre st).2).1 = Raise e →
  ensure_dirs_by mk (pre ++ p :: post) st
  = (Raise e, (mk p (ensure_dirs_by mk pre st).2).2).
Proof.
  revert st. induction pre as [|q pre IH]; intros st Hok Hex Hmk.
  - cbn [app]. rewrite ensure_dirs_by_cons.
    cbn [ensure_dirs_by mret M_ret fst snd] in *.
    unfold ensure_dir_by, mbind, M_bind, path_exists. rewrite Hex.
    apply result_state_eq in Hmk. by rewrite Hmk.
  - cbn [app]. rewrite !ensure_dirs_by_cons.
    rewrite ensure_dirs_by_cons in Hok, Hex, Hmk.
    destruct (ensure_dir_by mk q st) as [[[]|e'] sq]; [|done].
    by apply IH.
Qed.

Lemma create_directories_by_run mk src st :
  create_directories_by mk src st =
    match ensure_dirs_by mk (layout src) st with
    | (Ok _, st') =>
        logging_info "Directory structure created successfully" st'
    | (Raise e, st') =>
        (Raise e,
         (logging_error ("Error creating directories: " +:+ exn_str e) st').2)
    end.
Proof.
  unfold create_directories_by, try_except, mbind, M_bind.
  by destruct (ensure_dirs_by mk (layout src) st) as [[[]|e] st'].
Qed.

Lemma organize_loop_by_cons mv src now i p l st :
  organize_loop_by mv src now i (p :: l) st =
    match organize_one_by mv src now i p st with
    | (Ok _, st') => organize_loop_by mv src now (S i) l st'
    | (Raise e, st') => (Raise e, st')
    end.
Proof. reflexivity. Qed.

Lemma organize_one_by_run mv src now i n st :
  organize_one_by mv src now i (src // n) st =
    if considered src (fs st) n
    then
      match mv (src // n) (target src (fs st) n (now i))
               (count_total st).2 with
      | (Ok _, st') =>
          logging_info ("Moved '" +:+ n +:+ "' to "
                        +:+ get_category (suffix n) +:+ " folder")
                       (count_organized st').2
      | (Raise e, st') => (Raise e, st')
      end
    else (Ok (), st).
Proof.
  unfold organize_one_by, mbind, M_bind, is_file, path_exists, considered.
  rewrite !name_child.
  destruct (is_file_in (fs st) (src // n) && bool_decide (src // n ≠ log_file));
    [|reflexivity].
  unfold target, renamed_of, dest_of, category_dir. cbn [count_total fst snd fs].
  destruct (exists_in (fs st) _); destruct (mv _ _ _) as [[[]|e] st'];
    reflexivity.
Qed.

(** The loop stops at the first [shutil.move] that raises, in the state
    that call leaves. *)
Lemma organize_loop_by_fails mv src now pre n post i st e :
  (organize_loop_by mv src now i (map (child src) pre) st).1 = Ok () →
  considered src
    (fs (organize_loop_by mv src now i (map (child src) pre) st).2) n = true →
  (mv (src // n)
      (target src
         (fs (organize_loop_by mv src now i (map (child src) pre) st).2) n
         (now (i + length pre)))
      (count_total
         (organize_loop_by mv src now i (map (child src) pre) st).2).2).1
  = Raise e →
  organize_loop_by mv src now i (map (child src) (pre ++ n :: post)) st
  = (Raise e,
     (mv (src // n)
         (target src
            (fs (organize_loop_by mv src now i (map (child src) pre) st).2) n
            (now (i + length pre)))
         (count_total
            (organize_loop_by mv src now i (map (child src) pre) st).2).2).2).
Proof.
  revert i st. induction pre as [|m pre IH]; intros i st Hok Hc Hmv.
  - cbn [app map]. rewrite organize_loop_by_cons, organize_one_by_run.
    cbn [organize_loop_by map mret M_ret fst snd length] in *.
    rewrite Nat.add_0_r in *. rewrite Hc.
    apply result_state_eq in Hmv. by rewrite Hmv.
  - cbn [app map length] in *. rewrite !organize_loop_by_cons.
    rewrite organize_loop_by_cons in Hok, Hc, Hmv.
    destruct (organize_one_by mv src now i (src // m) st) as [[[]|e'] sq];
      [|done].
    rewrite !Nat.add_succ_r. rewrite Nat.add_succ_r in Hmv.
    by apply (IH (S i)).
Qed.

Lemma organize_files_by_run mk mv src scan now st :
  organize_files_by mk mv src scan now st =
    match create_directories_by mk src (reset_counts st).2 with
    | (Raise e, st1) => organize_failed e st1
    | (Ok _, st1) =>
        match iterdir scan src st1 with
        | (Raise e, st2) => organize_failed e st2
        | (Ok entries, st2) =>
            match organize_loop_by mv src now 0 entries st2 with
            | (Raise e, st3) => organize_failed e st3
            | (Ok _, st3) =>
                (Ok (organized_files st3, total_files st3),
                 (logging_info
                    ("Organization complete. Processed "
                     +:+ pretty (organized_files st3) +:+ " of "
                     +:+ pretty (total_files st3) +:+ " files") st3).2)
            end
        end
    end.
Proof.
  unfold organize_files_by, try_except, mbind, M_bind, organize_failed.
  cbn [reset_counts fst snd].
  destruct (create_directories_by _ _ _) as [[[]|e] st1]; [|reflexivity].
  destruct (iterdir _ _ _) as [[entries|e] st2]; [|reflexivity].
  destruct (organize_loop_by _ _ _ _ _ _) as [[[]|e] st3]; reflexivity.
Qed.

Lemma generate_report_by_run wr src st :
  generate_report_by wr src st =
    match wr (report_path src)
            (join_lines (expected_report src (fs st))) st with
    | (Ok _, st') => logging_info "Report generated successfully" st'
    | (Raise e, st') =>
        (Raise e,
         (logging_error ("Error generating report: " +:+ exn_str e) st').2)
    end.
Proof.
  unfold generate_report_by, try_except, mbind, M_bind.
  rewrite report_lines_run. unfold report_path.
  by destruct (wr _ _ _) as [[[]|e] st'].
Qed.

(** [main] catches whatever [organize_files] or [generate_report] raise
    (lines 145-147). *)
Lemma main_by_catches mk mv wr user_input scan now st e :
  let src := Path_of_string user_input in
  let run := organize_files_by mk mv src scan now
               (print "Enter the directory path to organize: " st).2 in
  (run.1 = Raise e →
   main_by mk mv wr user_input scan now st = (Ok (), main_failed e run.2))
  ∧ (∀ c, run.1 = Ok c →
     (generate_report_by wr src run.2).1 = Raise e →
     main_by mk mv wr user_input scan now st
     = (Ok (), main_failed e (generate_report_by wr src run.2).2)).
Proof.
  intros src run. unfold main_by, try_except, mbind, M_bind, main_failed.
  cbn [print fst snd]. fold src.
  change (organize_files_by mk mv src scan now _) with run.
  destruct run as [[c|e'] st1]; cbn [fst snd].
  - split; [done|]. intros c' _ Hrep. apply result_state_eq in Hrep.
    rewrite Hrep. reflexivity.
  - split; [|done]. intros [= ->]. reflexivity.
Qed.

(** C9. Whichever of the file operations raises, the exception ends the
    run in the same way.  When [mkdir] raises for one of the directories of
    the layout, [create_directories] logs it as an error creating
    directories and raises it again, [organize_files] logs it as an error
    organizing files and raises it again; when the listing of the source
    directory or the [shutil.move] of one of its files raises,
    [organize_files] does so; when [write_text] raises, [generate_report]
    logs it as an error generating the report and raises it again.  In
    each case [main] then prints the one line [An error occurred: <text>],
    logs the termination and returns, and the log file apart the file
    system is the one in which the exception was raised: nothing is tried
    again, and the files moved by the iterations before a failing one stay
    moved.  The operations are arbitrary here; with [mkdir], [move] and
    [write_text] for them the methods are those of the script, a [mkdir]
    or [move] that raises leaves the state as it found it, and the line is
    the only one printed after the prompt. *)
Theorem C9_error_propagation (mkdir_op : Path → M unit)
    (move_op : Path → Path → M unit)
    (write_text_op : Path → string → M unit)
    (user_input : string) (scan : list string)
    (now : nat → datetime) (st : state) (e : exn) :
  let src := Path_of_string user_input in
  let prompt := "Enter the directory path to organize: " in
  let result := main_by mkdir_op move_op write_text_op user_input scan now st in
  let made := create_directories_by mkdir_op src
                (reset_counts (print prompt st).2).2 in
  let said := "An error occurred: " +:+ exn_str e in
  let creating := (ERROR, "Error creating directories: " +:+ exn_str e) in
  let organizing := (ERROR, "Error organizing files: " +:+ exn_str e) in
  let reporting := (ERROR, "Error generating report: " +:+ exn_str e) in
  let ended := (ERROR, "Program terminated with error: " +:+ exn_str e) in
  (∀ pre p post,
     layout src = pre ++ p :: post →
     let before := ensure_dirs_by mkdir_op pre
                     (reset_counts (print prompt st).2).2 in
     before.1 = Ok () →
     exists_in (fs before.2) p = false →
     (mkdir_op p before.2).1 = Raise e →
     caught_at result (mkdir_op p before.2).2
       [creating; organizing; ended] said)
  ∧ (made.1 = Ok () →
     (iterdir scan src made.2).1 = Raise e →
     caught_at result made.2 [organizing; ended] said)
  ∧ (∀ pre n post,
       scan = pre ++ n :: post →
       made.1 = Ok () →
       is_dir_in (fs made.2) src = true →
       let before := organize_loop_by move_op src now 0
                       (map (child src) pre) made.2 in
       before.1 = Ok () →
       considered src (fs before.2) n = true →
       let failing := move_op (src // n)
                        (target src (fs before.2) n (now (length pre)))
                        (count_total before.2).2 in
       failing.1 = Raise e →
       caught_at result failing.2 [organizing; ended] said)
  ∧ (∀ c,
       let run := organize_files_by mkdir_op move_op src scan now
                    (print prompt st).2 in
       run.1 = Ok c →
       let failing := write_text_op (report_path src)
                        (join_lines (expected_report src (fs run.2)))
                        run.2 in
       failing.1 = Raise e →
       caught_at result failing.2 [reporting; ended] said)
  ∧ main_by mkdir move write_text user_input scan now st
    = main user_input scan now st
  ∧ (∀ p s, (mkdir p s).1 = Raise e → (mkdir p s).2 = s)
  ∧ (∀ a b s, (move a b s).1 = Raise e → (move a b s).2 = s)
  ∧ ((organize_files src scan now (print prompt st).2).1 = Raise e
     ∨ (∃ c, (organize_files src scan now (print prompt st).2).1 = Ok c)
       ∧ (generate_report src
            (organize_files src scan now (print prompt st).2).2).1 = Raise e →
     stdout (main user_input scan now st).2 = stdout st ++ [prompt; said]).
Proof.
  intros src prompt result made said creating organizing reporting ended.
  destruct (main_by_catches mkdir_op move_op write_text_op user_input scan
              now st e) as [Horg Hrep].
  fold src prompt in Horg, Hrep. fold result in Horg, Hrep.
  pose proof (organize_files_by_run mkdir_op move_op src scan now
                (print prompt st).2) as Hrun.
  fold made in Hrun.
  split; [|split; [|split; [|split; [|split; [|split; [|split]]]]]].
  - intros pre p post Hlay before Hok Hex Hmk.
    pose proof (ensure_dirs_by_fails mkdir_op pre p post _ e Hok Hex Hmk)
      as Hpass.
    fold before in Hpass. rewrite <- Hlay in Hpass.
    unfold made in Hrun. rewrite create_directories_by_run, Hpass in Hrun.
    rewrite Horg by (by rewrite Hrun). rewrite Hrun.
    unfold caught_at. cbn. by rewrite <- !app_assoc.
  - intros Hmade Hit. apply result_state_eq in Hmade, Hit.
    rewrite Hmade, Hit in Hrun.
    rewrite (iterdir_Raise _ _ _ _ _ Hit) in Hrun.
    rewrite Horg by (by rewrite Hrun). rewrite Hrun.
    unfold caught_at. cbn. by rewrite <- !app_assoc.
  - intros pre n post Hscan Hmade Hdir before Hok Hc failing Hmv.
    pose proof (organize_loop_by_fails move_op src now pre n post 0 made.2 e
                  Hok Hc Hmv) as Hloop.
    fold before in Hloop. cbn [Nat.add] in Hloop. fold failing in Hloop.
    rewrite <- Hscan in Hloop.
    apply result_state_eq in Hmade. rewrite Hmade in Hrun.
    unfold iterdir, is_dir_in in Hrun, Hdir.
    destruct (fs made.2 !! src) as [[?|]|]; try done.
    rewrite Hloop in Hrun.
    rewrite Horg by (by rewrite Hrun). rewrite Hrun.
    unfold caught_at. cbn. by rewrite <- !app_assoc.
  - intros c run Hok failing Hwr. subst failing run.
    apply result_state_eq in Hwr.
    pose proof (generate_report_by_run write_text_op src
                  (organize_files_by mkdir_op move_op src scan now
                     (print prompt st).2).2) as Hgen.
    rewrite Hwr in Hgen.
    rewrite (Hrep c Hok) by (by rewrite Hgen). rewrite Hgen.
    unfold caught_at. cbn. by rewrite <- !app_assoc.
  - reflexivity.
  - intros p s. unfold mkdir.
    destruct (exists_in _ _); [done|]. by destruct (is_dir_in _ _).
  - intros a b s H. apply result_state_eq in H.
    eapply move_Raise. exact H.
  - pose proof (main_run user_input scan now st) as Hm. cbv zeta in Hm.
    fold src prompt in Hm.
    pose proof (organize_files_stdout src scan now (print prompt st).2) as Hout.
    intros [Hraise|[[c Hok] Hraise]].
    + apply result_state_eq in Hraise. rewrite Hraise in Hm. rewrite Hm.
      cbn [snd main_failed stdout]. rewrite Hout. cbn.
      by rewrite <- app_assoc.
    + apply result_state_eq in Hok, Hraise. rewrite Hok in Hm.
      rewrite Hraise in Hm. rewrite Hm.
      apply generate_report_Raise in Hraise as ->.
      cbn [snd main_failed stdout logging_error]. rewrite Hout. cbn.
      by rewrite <- app_assoc.
Qed.

Lemma C9_error_propagation_witness :
  let nowhere := Path_of_string "nowhere" // "organized_files" in
  let image := docs // "organized_files" // "images" // "b.jpg" in
  let failed e := (ERROR, "Error organizing files: " +:+ exn_str e) in
  let ended e := (ERROR, "Program terminated with error: " +:+ exn_str e) in
  log (main "nowhere" [] at_noon (fresh_state fs_collision)).2
  = [ (ERROR, "Error creating directories: "
              +:+ exn_str (FileNotFoundError nowhere));
      failed (FileNotFoundError nowhere); ended (FileNotFoundError nowhere) ]
  ∧ log (main "docs" [] at_noon (fresh_state fs_source_missing)).2
    = [ (INFO, "Directory structure created successfully");
        failed (FileNotFoundError docs); ended (FileNotFoundError docs) ]
  ∧ log (main "docs" ["a.txt"; "b.jpg"] at_noon (fresh_state fs_blocked)).2
    = [ (INFO, "Directory structure created successfully");
        (INFO, "Moved 'a.txt' to documents folder");
        failed (NotADirectoryError image); ended (NotADirectoryError image) ]
  ∧ fs (main "docs" ["a.txt"; "b.jpg"] at_noon (fresh_state fs_blocked)).2
    !! dest_of docs "a.txt" = Some (File "A")
  ∧ stdout (main "docs" ["a.txt"; "organized_files"] at_noon
              (fresh_state fs_report_is_dir)).2
    = [ "Enter the directory path to organize: ";
        "An error occurred: " +:+ exn_str (IsADirectoryError (report_path docs)) ].
Proof.
  intros nowhere image failed ended.
  split; [|split; [|split; [|split]]].
  - destruct (C9_error_propagation mkdir move write_text "nowhere" [] at_noon
                (fresh_state fs_collision) (FileNotFoundError nowhere))
      as (H & _).
    destruct (H [] nowhere
                (map (child nowhere) layout_names)) as (_ & _ & Hlog & _);
      [reflexivity|reflexivity|reflexivity|reflexivity|].
    rewrite methods_by_model in Hlog. rewrite Hlog. reflexivity.
  - destruct (C9_error_propagation mkdir move write_text "docs" [] at_noon
                (fresh_state fs_source_missing) (FileNotFoundError docs))
      as (_ & H & _).
    destruct H as (_ & _ & Hlog & _);
      [vm_compute; reflexivity|vm_compute; reflexivity|].
    rewrite methods_by_model in Hlog. rewrite Hlog.
    vm_compute. reflexivity.
  - destruct (C9_error_propagation mkdir move write_text "docs"
                ["a.txt"; "b.jpg"] at_noon (fresh_state fs_blocked)
                (NotADirectoryError image)) as (_ & _ & H & _).
    destruct (H ["a.txt"] "b.jpg" []) as (_ & _ & Hlog & _);
      [reflexivity|vm_compute; reflexivity|vm_compute; reflexivity
      |vm_compute; reflexivity|vm_compute; reflexivity
      |vm_compute; reflexivity|].
    rewrite methods_by_model in Hlog. rewrite Hlog.
    vm_compute. reflexivity.
  - destruct (C9_error_propagation mkdir move write_text "docs"
                ["a.txt"; "b.jpg"] at_noon (fresh_state fs_blocked)
                (NotADirectoryError image)) as (_ & _ & H & _).
    destruct (H ["a.txt"] "b.jpg" []) as (_ & Hfs & _);
      [reflexivity|vm_compute; reflexivity|vm_compute; reflexivity
      |vm_compute; reflexivity|vm_compute; reflexivity
      |vm_compute; reflexivity|].
    rewrite methods_by_model in Hfs. rewrite Hfs by discriminate.
    vm_compute. reflexivity.
  - destruct (C9_error_propagation mkdir move write_text "docs"
                ["a.txt"; "organized_files"] at_noon
                (fresh_state fs_report_is_dir)
                (IsADirectoryError (report_path docs)))
      as (_ & _ & _ & H & _).
    destruct (H (1, 1)) as (_ & _ & _ & Hout);
      [vm_compute; reflexivity|vm_compute; reflexivity|].
    rewrite methods_by_model in Hout. rewrite Hout.
    vm_compute. reflexivity.
Defined.

(** In that run [a.txt] has been moved when [b.jpg] fails, and stays
    moved. *)
Lemma blocked_run_keeps_moved_file :
  let result := main "docs" ["a.txt"; "b.jpg"] at_noon (fresh_state fs_blocked) in
  fs result.2 !! (docs // "a.txt") = None
  ∧ fs result.2 !! dest_of docs "a.txt" = Some (File "A")
  ∧ fs result.2 !! (docs // "b.jpg") = Some (File "B").
Proof. repeat split; by vm_compute. Qed.

(** * Further properties of the script *)

(** ** The folders [create_directories] makes *)

Lemma layout_children src :
  layout src = organized_dir src :: map (child (organized_dir src)) layout_names.
Proof. reflexivity. Qed.

(** A pass over directories only adds entries, each a directory of the
    pass at a path that was free. *)
Lemma ensure_dirs_effect ps st r st' q :
  ensure_dirs ps st = (r, st') →
  fs st' !! q = fs st !! q
  ∨ (fs st !! q = None ∧ q ∈ ps ∧ fs st' !! q = Some Dir).
Proof.
  revert st. induction ps as [|p ps IH]; intros st.
  - intros [= <- <-]. by left.
  - rewrite ensure_dirs_cons, ensure_dir_run.
    destruct (exists_in (fs st) p) eqn:Hex.
    + intros Hrun. destruct (IH _ Hrun) as [H|(H1 & H2 & H3)]; [by left|].
      right. split; [done|]. split; [by right|done].
    + apply exists_in_false in Hex.
      destruct (is_dir_in (fs st) (parent p)); [|intros [= <- <-]; by left].
      intros Hrun. destruct (IH _ Hrun) as [H|(H1 & H2 & H3)];
        cbn [set_fs fs] in *.
      * destruct (decide (q = p)) as [->|Hne].
        -- rewrite lookup_insert_eq in H. right. split; [done|].
           split; [by left|done].
        -- rewrite lookup_insert_ne in H by done. by left.
      * destruct (decide (q = p)) as [->|Hne].
        -- by rewrite lookup_insert_eq in H1.
        -- rewrite lookup_insert_ne in H1 by done. right.
           split; [done|]. split; [by right|done].
Qed.

Lemma ensure_dirs_Ok_exists ps st st' p :
  ensure_dirs ps st = (Ok (), st') → p ∈ ps → is_Some (fs st' !! p).
Proof.
  revert st. induction ps as [|p0 ps IH]; intros st Hrun Hin.
  - by apply elem_of_nil in Hin.
  - rewrite ensure_dirs_cons, ensure_dir_run in Hrun.
    apply elem_of_cons in Hin as [->|Hin].
    + destruct (exists_in (fs st) p0) eqn:Hex.
      * apply exists_in_true in Hex as [x Hx].
        destruct (ensure_dirs_idem _ _ _ _ Hrun) as [Hsub _].
        exists x. by eapply lookup_weaken.
      * destruct (is_dir_in (fs st) (parent p0)); [|done].
        destruct (ensure_dirs_idem _ _ _ _ Hrun) as [Hsub _].
        exists Dir. eapply lookup_weaken; [|exact Hsub].
        cbn. by rewrite lookup_insert_eq.
    + destruct (exists_in (fs st) p0); [by eapply IH|].
      destruct (is_dir_in (fs st) (parent p0)); [by eapply IH|done].
Qed.

(** Where everything asked for exists, a pass does nothing. *)
Lemma ensure_dirs_all_exist ps st :
  (∀ p, p ∈ ps → is_Some (fs st !! p)) → ensure_dirs ps st = (Ok (), st).
Proof.
  induction ps as [|p ps IH]; intros Hall; [reflexivity|].
  rewrite ensure_dirs_cons, ensure_dir_run.
  rewrite (proj2 (exists_in_true _ _)) by (apply Hall; by left).
  apply IH. intros q Hq. apply Hall. by right.
Qed.

Lemma child_neq d n : d // n ≠ d.
Proof. apply path_depth_neq. rewrite parts_length_child. lia. Qed.


(** ** The category of any extension is a folder of the layout *)

Lemma get_category_in_range cats e :
  get_category_in cats e ∈ map fst cats ++ ["misc"].
Proof.
  induction cats as [|[c exts] cats IH]; cbn; [by left|].
  destruct (bool_decide _); [by left|by right].
Qed.

(** X13. Whatever the file name, its category is one of the six of the
    table or "misc", so its destination folder is one of the eight
    directories [create_directories] ensures. *)
Theorem X13_category_dir_in_layout (src : Path) (n : string) :
  get_category (suffix n) ∈ layout_names
  ∧ category_dir src n ∈ layout src
  ∧ parent (dest_of src n) = category_dir src n.
Proof.
  assert (get_category (suffix n) ∈ layout_names) as Hin
    by apply get_category_in_range.
  split; [done|]. split.
  - rewrite layout_children. right. unfold category_dir.
    by apply list_elem_of_fmap_2.
  - apply parent_child.
Qed.

(** X1. The log file apart, which the logging calls write,
    [create_directories] changes the file system only by adding
    directories of the layout at paths that were free; when it returns,
    every path of the layout exists. *)
Theorem X1_create_directories_effect (src : Path) (st : state) :
  let st' := (create_directories src st).2 in
  (∀ q, q ≠ log_file →
        fs st' !! q = fs st !! q
        ∨ (fs st !! q = None ∧ q ∈ layout src ∧ fs st' !! q = Some Dir))
  ∧ ((create_directories src st).1 = Ok () →
     ∀ p, p ∈ layout src → is_Some (fs st' !! p)).
Proof.
  cbv zeta. rewrite create_directories_run.
  destruct (ensure_dirs (layout src) st) as [r st1] eqn:Hrun. split.
  - intros q _. pose proof (ensure_dirs_effect _ _ _ _ q Hrun) as H.
    by destruct r as [[]|e].
  - destruct r as [[]|e]; [|done]. intros _ p Hp. cbn.
    by eapply ensure_dirs_Ok_exists.
Qed.

Lemma X1_create_directories_effect_witness :
  is_Some (fs (create_directories docs (fresh_state fs_first_run)).2
           !! (organized_dir docs // "videos")).
Proof.
  destruct (X1_create_directories_effect docs (fresh_state fs_first_run))
    as [_ H].
  apply H; [vm_compute; reflexivity|].
  apply (list_elem_of_lookup_2 _ 4). reflexivity.
Defined.



(** ** What one iteration can change *)


Lemma target_depth src f n t :
  length (parts (target src f n t)) = 3 + length (parts src).
Proof.
  unfold target. destruct (exists_in _ _);
    [apply renamed_of_depth|apply dest_of_depth].
Qed.

Lemma under_target src f n t : under (organized_dir src) (target src f n t).
Proof.
  unfold target. destruct (exists_in _ _);
    [apply under_renamed_of|apply under_dest_of].
Qed.


Lemma organize_one_skip src now i n st :
  considered src (fs st) n = false →
  organize_one src now i (src // n) st = (Ok (), st).
Proof.
  intros H. rewrite organize_one_run. unfold considered in H. by rewrite H.
Qed.

(** Either nothing changes in the file system, or the file of the entry
    is taken from the source directory and put at the path handed to
    [shutil.move], which then held no directory, or inside the directory
    found there, under a name that was free. *)
Lemma organize_one_cases src now i n st :
  let st' := (organize_one src now i (src // n) st).2 in
  let dst := target src (fs st) n (now i) in
  fs st' = fs st
  ∨ ∃ c real,
      considered src (fs st) n = true
      ∧ (organize_one src now i (src // n) st).1 = Ok ()
      ∧ fs st !! (src // n) = Some (File c)
      ∧ (real = dst ∧ is_dir_in (fs st) dst = false
           ∧ is_dir_in (fs st) (parent dst) = true
         ∨ real = dst // n ∧ is_dir_in (fs st) dst = true
           ∧ fs st !! real = None)
      ∧ fs st' = <[real := File c]> (delete (src // n) (fs st))
      ∧ total_files st' = total_files st + 1
      ∧ organized_files st' = organized_files st + 1.
Proof.
  cbv zeta. rewrite organize_one_run. fold (considered src (fs st) n).
  destruct (considered src (fs st) n) eqn:Hc; [|by left].
  destruct (move _ _ _) as [[[]|e] st1] eqn:Hmove.
  - right. apply move_Ok in Hmove as (c & Hfile & Hcase).
    rewrite name_child in Hcase. cbn [count_total fst snd fs] in *.
    destruct Hcase as [(Hd & Hnone & ->)|(Hd & Hp & ->)].
    + exists c, (target src (fs st) n (now i) // n). cbn. auto 10.
    + exists c, (target src (fs st) n (now i)). cbn. auto 10.
  - left. by apply move_Raise in Hmove as ->.
Qed.

Lemma organize_one_footprint src now i n st q :
  q ≠ src // n →
  q ≠ target src (fs st) n (now i) →
  q ≠ target src (fs st) n (now i) // n →
  fs (organize_one src now i (src // n) st).2 !! q = fs st !! q.
Proof.
  intros H1 H2 H3.
  destruct (organize_one_cases src now i n st)
    as [->|(c & real & _ & _ & _ & Hreal & -> & _)]; [done|].
  rewrite lookup_insert_ne, lookup_delete_ne; [done..|].
  by destruct Hreal as [[-> _]|[-> _]].
Qed.

(** Nothing outside [organized_files] changes but the entry itself. *)
Lemma organize_one_outside src now i n st q :
  q ≠ src // n → ¬ under (organized_dir src) q →
  fs (organize_one src now i (src // n) st).2 !! q = fs st !! q.
Proof.
  intros H1 H2. apply organize_one_footprint; [done|..]; intros ->; apply H2.
  - apply under_target.
  - apply under_child, under_target.
Qed.

(** Nothing less than three levels below the source directory changes
    but the entry itself. *)
Lemma organize_one_shallow src now i n st q :
  q ≠ src // n → length (parts q) < 3 + length (parts src) →
  fs (organize_one src now i (src // n) st).2 !! q = fs st !! q.
Proof.
  intros H1 H2. apply organize_one_footprint; [done|..]; intros ->.
  - rewrite target_depth in H2. lia.
  - rewrite parts_length_child, target_depth in H2. lia.
Qed.

Lemma organize_one_keeps_dirs src now i n st q :
  fs st !! q = Some Dir →
  fs (organize_one src now i (src // n) st).2 !! q = Some Dir.
Proof.
  intros Hq.
  destruct (organize_one_cases src now i n st)
    as [->|(c & real & _ & _ & Hfile & Hreal & -> & _)]; [done|].
  rewrite lookup_insert_ne, lookup_delete_ne; [done|congruence|].
  unfold is_dir_in in Hreal.
  destruct Hreal as [(-> & Hd & _)|(-> & _ & Hnone)]; intros <-.
  - by rewrite Hq in Hd.
  - congruence.
Qed.

Lemma organize_one_keeps_existing src now i n st q :
  is_Some (fs st !! q) → q ≠ src // n →
  is_Some (fs (organize_one src now i (src // n) st).2 !! q).
Proof.
  intros Hq Hne.
  destruct (organize_one_cases src now i n st)
    as [->|(c & real & _ & _ & _ & _ & -> & _)]; [done|].
  destruct (decide (real = q)) as [->|Hr].
  - rewrite lookup_insert_eq. eauto.
  - by rewrite lookup_insert_ne, lookup_delete_ne.
Qed.

(** ** Lifting a property of iterations to the loop and to a run *)

Lemma organize_loop_invariant src now (P : state → Prop) names i st :
  P st →
  (∀ j n s, n ∈ names → P s → P (organize_one src now j (src // n) s).2) →
  P (organize_loop src now i (map (child src) names) st).2.
Proof.
  revert i st. induction names as [|n names IH]; intros i st HP Hstep; [done|].
  cbn [map]. rewrite organize_loop_cons.
  pose proof (Hstep i n st ltac:(by left) HP) as H1.
  destruct (organize_one _ _ _ _ _) as [[[]|e] st1]; [|done].
  apply IH; [done|]. intros j m s Hm. apply Hstep. by right.
Qed.

Lemma organize_files_invariant src scan now (P : gmap Path node → Prop) st :
  P (fs st) →
  (∀ s, P (fs s) → P (fs (create_directories src s).2)) →
  (∀ j n s, n ∈ scan → P (fs s) →
            P (fs (organize_one src now j (src // n) s).2)) →
  P (fs (organize_files src scan now st).2).
Proof.
  intros HP Hcreate Hstep. rewrite organize_files_run.
  pose proof (Hcreate (reset_counts st).2 HP) as H1.
  destruct (create_directories _ _) as [[[]|e] st1]; [|done].
  destruct (iterdir _ _ _) as [[entries|e] st2] eqn:Hit.
  2: { by apply iterdir_Raise in Hit as ->. }
  apply iterdir_Ok in Hit as [-> ->].
  pose proof (organize_loop_invariant src now (λ s, P (fs s)) scan 0 st1 H1 Hstep)
    as H3.
  by destruct (organize_loop _ _ _ _ _) as [[[]|e] st3].
Qed.

Lemma generate_report_footprint src st q :
  q ≠ report_path src →
  fs (generate_report src st).2 !! q = fs st !! q.
Proof.
  intros Hq. rewrite generate_report_run.
  destruct (write_text _ _ _) as [[[]|e] st'] eqn:Hw.
  - apply write_text_Ok in Hw as ->. cbn. by rewrite lookup_insert_ne.
  - by apply write_text_Raise in Hw as ->.
Qed.

Lemma generate_report_keeps_dirs src st q :
  fs st !! q = Some Dir → fs (generate_report src st).2 !! q = Some Dir.
Proof.
  intros Hq. rewrite generate_report_run. unfold write_text, is_dir_in.
  destruct (decide (q = report_path src)) as [->|Hne].
  - by rewrite Hq.
  - destruct (fs st !! report_path src) as [[c|]|];
      [|done|]; (destruct (fs st !! parent (report_path src)) as [[c'|]|];
      [done| |done]); cbn; by rewrite lookup_insert_ne.
Qed.

(** The file system [main] ends with is the one its two steps leave. *)
Lemma main_fs user_input scan now st :
  let src := Path_of_string user_input in
  let run := organize_files src scan now
               (print "Enter the directory path to organize: " st).2 in
  fs (main user_input scan now st).2
  = match run.1 with
    | Ok _ => fs (generate_report src run.2).2
    | Raise _ => fs run.2
    end.
Proof.
  cbv zeta. pose proof (main_run user_input scan now st) as Hm.
  cbv zeta in Hm. rewrite Hm.
  destruct (organize_files _ _ _ _) as [[c|e] st1]; [|done].
  by destruct (generate_report _ _) as [[[]|e] st2].
Qed.

(** ** What a run leaves alone *)

Lemma create_directories_changes src st q :
  fs (create_directories src st).2 !! q = fs st !! q
  ∨ (fs st !! q = None ∧ q ∈ layout src
     ∧ fs (create_directories src st).2 !! q = Some Dir).
Proof.
  rewrite create_directories_run.
  destruct (ensure_dirs (layout src) st) as [r st1] eqn:Hrun.
  pose proof (ensure_dirs_effect _ _ _ _ q Hrun) as H.
  by destruct r as [[]|e].
Qed.

Lemma under_layout src p : p ∈ layout src → under (organized_dir src) p.
Proof.
  rewrite layout_children. intros [->|Hp]%elem_of_cons; [apply under_refl|].
  apply list_elem_of_fmap in Hp as (c & -> & _).
  apply under_child, under_refl.
Qed.


Lemma create_directories_outside src st q :
  ¬ under (organized_dir src) q →
  fs (create_directories src st).2 !! q = fs st !! q.
Proof.
  intros Hq. destruct (create_directories_changes src st q)
    as [H|(_ & Hin & _)]; [done|].
  destruct Hq. by apply under_layout.
Qed.

Lemma create_directories_keeps src st q x :
  fs st !! q = Some x → fs (create_directories src st).2 !! q = Some x.
Proof.
  intros Hq. destruct (create_directories_frame src st) as [Hsub _].
  by eapply lookup_weaken.
Qed.



(** X4. A run of [main] changes nothing outside [organized_files] other
    than the listed entries of the source directory and the log file it
    writes: what lies in the sub-directories of the source directory, and
    anything elsewhere, is as before. *)
Theorem X4_run_is_not_recursive (user_input : string) (scan : list string)
    (now : nat → datetime) (st : state) (q : Path) :
  let src := Path_of_string user_input in
  ¬ under (organized_dir src) q →
  (∀ n, n ∈ scan → q ≠ src // n) →
  q ≠ log_file →
  fs (main user_input scan now st).2 !! q = fs st !! q.
Proof.
  intros src Hout Hne _.
  pose proof (main_fs user_input scan now st) as Hm. cbv zeta in Hm.
  fold src in Hm. rewrite Hm. clear Hm.
  set (st0 := (print "Enter the directory path to organize: " st).2).
  assert (fs (organize_files src scan now st0).2 !! q = fs st !! q) as Hrun.
  { apply (organize_files_invariant src scan now (λ f, f !! q = fs st !! q)).
    - done.
    - intros s Hs. by rewrite create_directories_outside.
    - intros j n s Hn Hs. rewrite organize_one_outside; [done| |done].
      by apply Hne. }
  destruct (organize_files src scan now st0).1; [|done].
  rewrite generate_report_footprint; [done|].
  intros ->. apply Hout. apply under_child, under_refl.
Qed.

Lemma X4_run_is_not_recursive_witness :
  fs (main "docs" scan_first_run at_noon (fresh_state fs_first_run)).2
    !! (docs // "sub" // "inner.txt")
  = Some (File "I").
Proof.
  apply (X4_run_is_not_recursive "docs" scan_first_run at_noon
           (fresh_state fs_first_run) (docs // "sub" // "inner.txt")).
  - apply (bool_decide_unpack _). vm_compute. exact I.
  - intros n _. apply path_depth_neq. vm_compute. lia.
  - discriminate.
Defined.

(** X5. A run of [main] never removes a directory nor puts anything in
    its place: every directory of the file system is a directory
    afterwards. *)
Theorem X5_directories_are_kept (user_input : string) (scan : list string)
    (now : nat → datetime) (st : state) (q : Path) :
  fs st !! q = Some Dir →
  fs (main user_input scan now st).2 !! q = Some Dir.
Proof.
  intros Hq.
  pose proof (main_fs user_input scan now st) as Hm. cbv zeta in Hm.
  rewrite Hm. clear Hm.
  set (src := Path_of_string user_input).
  set (st0 := (print "Enter the directory path to organize: " st).2).
  assert (fs (organize_files src scan now st0).2 !! q = Some Dir) as Hrun.
  { apply (organize_files_invariant src scan now (λ f, f !! q = Some Dir)).
    - done.
    - intros s Hs. by apply create_directories_keeps.
    - intros j n s _ Hs. by apply organize_one_keeps_dirs. }
  destruct (organize_files src scan now st0).1; [|done].
  by apply generate_report_keeps_dirs.
Qed.

Lemma X5_directories_are_kept_witness :
  fs (main "docs" scan_first_run at_noon (fresh_state fs_first_run)).2
    !! (docs // "sub") = Some Dir.
Proof.
  apply (X5_directories_are_kept "docs" scan_first_run at_noon
           (fresh_state fs_first_run) (docs // "sub")).
  reflexivity.
Defined.

(** ** Counting, and leaving the source directory *)

Lemma organize_one_Ok_considered src now i n st st' :
  considered src (fs st) n = true →
  organize_one src now i (src // n) st = (Ok (), st') →
  total_files st' = total_files st + 1
  ∧ organized_files st' = organized_files st + 1
  ∧ fs st' !! (src // n) = None.
Proof.
  intros Hc Hrun.
  destruct (organize_one_cases src now i n st)
    as [Hfs|(c & real & _ & _ & Hfile & Hreal & Hfs & Ht & Ho)];
    rewrite Hrun in *; cbn [fst snd] in *.
  - rewrite organize_one_run in Hrun. fold (considered src (fs st) n) in Hrun.
    rewrite Hc in Hrun.
    destruct (move _ _ _) as [[[]|e] st1] eqn:Hmove; [|done].
    apply move_Ok in Hmove as (c & Hfile & [(_ & _ & ->)|(_ & _ & ->)]);
      injection Hrun as <-; cbn in *.
    + split; [done|]. split; [done|].
      rewrite lookup_insert_ne, lookup_delete_eq; [done|].
      apply path_depth_neq. rewrite !parts_length_child, target_depth. lia.
    + split; [done|]. split; [done|].
      rewrite lookup_insert_ne, lookup_delete_eq; [done|].
      apply path_depth_neq. rewrite parts_length_child, target_depth. lia.
  - split; [done|]. split; [done|]. rewrite Hfs.
    rewrite lookup_insert_ne, lookup_delete_eq; [done|].
    apply path_depth_neq.
    destruct Hreal as [(-> & _)|(-> & _)];
      rewrite ?parts_length_child, target_depth; lia.
Qed.

Lemma considered_ext src f f' n :
  f' !! (src // n) = f !! (src // n) → considered src f' n = considered src f n.
Proof. unfold considered, is_file_in. by intros ->. Qed.

Lemma considered_other src now i n st m :
  m ≠ n →
  considered src (fs (organize_one src now i (src // n) st).2) m
  = considered src (fs st) m.
Proof.
  intros Hne. apply considered_ext, organize_one_shallow.
  - by intros ?%child_inj.
  - rewrite parts_length_child. lia.
Qed.

Lemma considered_create src st m :
  considered src (fs (create_directories src st).2) m
  = considered src (fs st) m.
Proof.
  unfold considered, is_file_in.
  destruct (create_directories_changes src st (src // m))
    as [->|(-> & _ & ->)]; done.
Qed.

Lemma filter_ext_elem {A} (P Q : A → Prop) `{!∀ x, Decision (P x)}
    `{!∀ x, Decision (Q x)} (l : list A) :
  (∀ x, x ∈ l → P x ↔ Q x) → filter P l = filter Q l.
Proof.
  induction l as [|a l IH]; intros Hext; [done|].
  rewrite !filter_cons. rewrite IH by (intros x Hx; apply Hext; by right).
  pose proof (Hext a ltac:(by left)) as Ha.
  destruct (decide (P a)), (decide (Q a)); try done; tauto.
Qed.

Lemma organize_loop_total src now names i st st' :
  NoDup names →
  organize_loop src now i (map (child src) names) st = (Ok (), st') →
  total_files st'
  = total_files st
    + length (filter (λ m, considered src (fs st) m = true) names).
Proof.
  revert i st. induction names as [|n names IH]; intros i st Hnd.
  - intros [= <-]. cbn. lia.
  - cbn [map]. rewrite organize_loop_cons.
    apply NoDup_cons in Hnd as [Hn Hnd].
    destruct (organize_one _ _ _ _ _) as [[[]|e] st1] eqn:Hone; [|done].
    intros Hrun. rewrite (IH _ _ Hnd Hrun).
    assert (filter (λ m, considered src (fs st1) m = true) names
            = filter (λ m, considered src (fs st) m = true) names) as ->.
    { apply filter_ext_elem. intros m Hm.
      pose proof (considered_other src now i n st m) as Ho.
      rewrite Hone in Ho. cbn [fst snd] in Ho.
      rewrite Ho; [done|]. by intros ->. }
    rewrite filter_cons.
    destruct (decide (considered src (fs st) n = true)) as [Hc|Hc].
    + destruct (organize_one_Ok_considered _ _ _ _ _ _ Hc Hone) as (-> & _).
      cbn. lia.
    + apply not_true_is_false in Hc.
      rewrite organize_one_skip in Hone by done. by injection Hone as <-.
Qed.

(** The path of a listing entry that is free stays free. *)
Lemma organize_one_keeps_absent src now j m st n :
  fs st !! (src // n) = None →
  fs (organize_one src now j (src // m) st).2 !! (src // n) = None.
Proof.
  intros Hn. destruct (decide (m = n)) as [->|Hne].
  - rewrite organize_one_skip; [done|].
    unfold considered, is_file_in. by rewrite Hn.
  - rewrite organize_one_shallow; [done| |].
    + intros ?%child_inj. by apply Hne.
    + rewrite parts_length_child. lia.
Qed.

Lemma organize_loop_gone src now names i st st' n :
  NoDup names →
  organize_loop src now i (map (child src) names) st = (Ok (), st') →
  n ∈ names → considered src (fs st) n = true →
  fs st' !! (src // n) = None.
Proof.
  revert i st. induction names as [|n0 names IH]; intros i st Hnd Hrun Hin Hc.
  - by apply elem_of_nil in Hin.
  - cbn [map] in Hrun. rewrite organize_loop_cons in Hrun.
    apply NoDup_cons in Hnd as [Hn0 Hnd].
    destruct (organize_one _ _ _ _ _) as [[[]|e] st1] eqn:Hone; [|done].
    apply elem_of_cons in Hin as [->|Hin].
    + destruct (organize_one_Ok_considered _ _ _ _ _ _ Hc Hone) as (_ & _ & Hnone).
      pose proof (organize_loop_invariant src now
                    (λ s, fs s !! (src // n0) = None) names (S i) st1 Hnone) as Hp.
      rewrite Hrun in Hp. apply Hp.
      intros j m s _ Hs. by apply organize_one_keeps_absent.
    + eapply IH; [done..|].
      pose proof (considered_other src now i n0 st n) as Ho.
      rewrite Hone in Ho. cbn [fst snd] in Ho.
      rewrite Ho; [done|]. by intros ->.
Qed.

(** What a run that returns went through, step by step. *)
Lemma organize_files_Ok_steps src scan now st c :
  (organize_files src scan now st).1 = Ok c →
  ∃ st1 st3,
    create_directories src (reset_counts st).2 = (Ok (), st1)
    ∧ is_dir_in (fs st1) src = true
    ∧ organize_loop src now 0 (map (child src) scan) st1 = (Ok (), st3)
    ∧ fs (organize_files src scan now st).2 = fs st3
    ∧ c = (organized_files st3, total_files st3).
Proof.
  rewrite organize_files_run.
  destruct (create_directories _ _) as [[[]|e] st1] eqn:Hc; [|done].
  destruct (iterdir _ _ _) as [[entries|e] st2] eqn:Hit; [|done].
  assert (is_dir_in (fs st1) src = true) as Hdir.
  { unfold iterdir, is_dir_in in *.
    by destruct (fs st1 !! src) as [[x|]|]. }
  apply iterdir_Ok in Hit as [-> ->].
  destruct (organize_loop _ _ _ _ _) as [[[]|e] st3] eqn:Hloop; [|done].
  intros [= <-]. by exists st1, st3.
Qed.

(** X6. When [organize_files] returns, both numbers it returns are the
    number of listing entries that were regular files of the source
    directory when it was called, the excluded log path apart. *)
Theorem X6_counts_are_the_files_listed (src : Path) (scan : list string)
    (now : nat → datetime) (st : state) (o t : nat) :
  NoDup scan →
  (organize_files src scan now st).1 = Ok (o, t) →
  t = length (filter (λ n, considered src (fs st) n = true) scan) ∧ o = t.
Proof.
  intros Hnd Hrun.
  apply organize_files_Ok_steps in Hrun
    as (st1 & st3 & Hc & _ & Hloop & _ & [= -> ->]).
  destruct (create_directories_frame src (reset_counts st).2) as (_ & Ht & Ho).
  rewrite Hc in Ht, Ho. cbn in Ht, Ho.
  assert (organized_files st3 = total_files st3) as Heq.
  { eapply organize_loop_eq; [done|]. by rewrite Ht, Ho. }
  split; [|done].
  rewrite (organize_loop_total _ _ _ _ _ _ Hnd Hloop), Ht.
  cbn. f_equal. apply filter_ext_elem. intros m _.
  pose proof (considered_create src (reset_counts st).2 m) as Hcc.
  rewrite Hc in Hcc. cbn in Hcc. by rewrite Hcc.
Qed.

Lemma X6_counts_are_the_files_listed_witness :
  3 = length (filter (λ n, considered docs fs_first_run n = true)
                     scan_first_run).
Proof.
  apply (X6_counts_are_the_files_listed docs scan_first_run at_noon
           (fresh_state fs_first_run) 3 3).
  - apply (bool_decide_unpack _). vm_compute. exact I.
  - vm_compute. reflexivity.
Defined.

(** X7. When [organize_files] returns, no regular file it listed is left
    in the source directory, the excluded log path apart: each was moved,
    not copied. *)
Theorem X7_moved_files_leave_the_source (src : Path) (scan : list string)
    (now : nat → datetime) (st : state) (c : nat * nat) (n : string) :
  NoDup scan →
  (organize_files src scan now st).1 = Ok c →
  n ∈ scan →
  considered src (fs st) n = true →
  fs (organize_files src scan now st).2 !! (src // n) = None.
Proof.
  intros Hnd Hrun Hin Hcons.
  apply organize_files_Ok_steps in Hrun
    as (st1 & st3 & Hc & _ & Hloop & -> & _).
  eapply organize_loop_gone; [done..|].
  pose proof (considered_create src (reset_counts st).2 n) as Hcc.
  rewrite Hc in Hcc. cbn in Hcc. by rewrite Hcc.
Qed.

Lemma X7_moved_files_leave_the_source_witness :
  fs (organize_files docs scan_first_run at_noon (fresh_state fs_first_run)).2
    !! (docs // "b.jpg") = None.
Proof.
  apply (X7_moved_files_leave_the_source docs scan_first_run at_noon
           (fresh_state fs_first_run) (3, 3) "b.jpg").
  - apply (bool_decide_unpack _). vm_compute. exact I.
  - vm_compute. reflexivity.
  - apply (list_elem_of_lookup_2 _ 3). reflexivity.
  - reflexivity.
Defined.

(** ** Runs without collisions *)














(** ** Running again *)

Lemma organize_loop_all_skip src now names i st :
  (∀ n, n ∈ names → considered src (fs st) n = false) →
  organize_loop src now i (map (child src) names) st = (Ok (), st).
Proof.
  revert i. induction names as [|n names IH]; intros i Hall; [done|].
  cbn [map]. rewrite organize_loop_cons.
  rewrite organize_one_skip by (apply Hall; by left).
  apply IH. intros m Hm. apply Hall. by right.
Qed.

(** After a loop that returned, no entry of its listing passes the test
    of line 72 any more. *)
Lemma organize_loop_leaves_none src now names i st st' n :
  NoDup names →
  organize_loop src now i (map (child src) names) st = (Ok (), st') →
  n ∈ names →
  considered src (fs st') n = false.
Proof.
  intros Hnd Hrun Hin.
  destruct (considered src (fs st) n) eqn:Hc.
  - unfold considered, is_file_in.
    by rewrite (organize_loop_gone _ _ _ _ _ _ _ Hnd Hrun Hin Hc).
  - unfold considered in *.
    destruct (bool_decide (src // n ≠ log_file)); [|by rewrite andb_false_r].
    rewrite andb_true_r in *. unfold is_file_in in *.
    destruct (fs st !! (src // n)) as [[c|]|] eqn:E; [done| |].
    + pose proof (organize_loop_invariant src now
                    (λ s, fs s !! (src // n) = Some Dir) names i st E) as Hp.
      rewrite Hrun in Hp. cbn [fst snd] in Hp. rewrite Hp; [done|].
      intros j m s _ Hs. by apply organize_one_keeps_dirs.
    + pose proof (organize_loop_invariant src now
                    (λ s, fs s !! (src // n) = None) names i st E) as Hp.
      rewrite Hrun in Hp. cbn [fst snd] in Hp. rewrite Hp; [done|].
      intros j m s _ Hs. by apply organize_one_keeps_absent.
Qed.

Lemma organize_loop_keeps_layout src now names i st st' p :
  organize_loop src now i (map (child src) names) st = (Ok (), st') →
  is_dir_in (fs st) (organized_dir src) = true →
  p ∈ layout src → is_Some (fs st !! p) → is_Some (fs st' !! p).
Proof.
  intros Hrun Horg Hp Hex. rewrite layout_children in Hp.
  apply elem_of_cons in Hp as [->|Hp].
  - assert (fs st !! organized_dir src = Some Dir) as E.
    { unfold is_dir_in in Horg.
      by destruct (fs st !! organized_dir src) as [[c|]|]. }
    pose proof (organize_loop_invariant src now
                  (λ s, fs s !! organized_dir src = Some Dir) names i st E) as Hk.
    rewrite Hrun in Hk. cbn [fst snd] in Hk. rewrite Hk; [eauto|].
    intros j m s _ Hs. by apply organize_one_keeps_dirs.
  - apply list_elem_of_fmap in Hp as (c & -> & _).
    pose proof (organize_loop_invariant src now
                  (λ s, is_Some (fs s !! (organized_dir src // c)))
                  names i st Hex) as Hk.
    rewrite Hrun in Hk. apply Hk.
    intros j m s _ Hs. apply organize_one_keeps_existing; [done|].
    apply path_depth_neq. unfold organized_dir.
    rewrite !parts_length_child. lia.
Qed.

(** Run again right after a run that returned, on a listing with no new
    names, the folders are in place and there is no file to move. *)
Lemma organize_files_again (src : Path) (scan scan2 : list string)
    (now now' : nat → datetime) (st : state) (c : nat * nat) :
  NoDup scan →
  is_file_in (fs st) (organized_dir src) = false →
  (organize_files src scan now st).1 = Ok c →
  scan2 ⊆ scan →
  let st' := (organize_files src scan now st).2 in
  (organize_files src scan2 now' st').1 = Ok (0, 0)
  ∧ fs (organize_files src scan2 now' st').2 = fs st'.
Proof.
  intros Hnd Hnf Hrun Hsub st'.
  apply organize_files_Ok_steps in Hrun
    as (st1 & st3 & Hc & Hdir & Hloop & Hfs & _).
  fold st' in Hfs.
  assert (∀ p, p ∈ layout src → is_Some (fs st1 !! p)) as Hex1.
  { intros p Hp. rewrite create_directories_run in Hc.
    destruct (ensure_dirs _ _) as [[[]|e] s1] eqn:Hens; [|done].
    injection Hc as <-. cbn. by eapply ensure_dirs_Ok_exists. }
  assert (is_dir_in (fs st1) (organized_dir src) = true) as Horg.
  { destruct (Hex1 (organized_dir src)) as [x Hx];
      [rewrite layout_children; by left|].
    unfold is_dir_in. rewrite Hx.
    destruct (create_directories_changes src (reset_counts st).2
                (organized_dir src)) as [Heq|(_ & _ & Heq)];
      rewrite Hc in Heq; cbn in Heq; rewrite Hx in Heq.
    - unfold is_file_in in Hnf. rewrite <- Heq in Hnf. by destruct x.
    - by injection Heq as ->. }
  assert (∀ p, p ∈ layout src → is_Some (fs st' !! p)) as Hex.
  { intros p Hp. rewrite Hfs.
    eapply organize_loop_keeps_layout; [done..|]. by apply Hex1. }
  assert (fs st' !! src = Some Dir) as Hsrc.
  { rewrite Hfs.
    assert (fs st1 !! src = Some Dir) as E.
    { unfold is_dir_in in Hdir. by destruct (fs st1 !! src) as [[x|]|]. }
    pose proof (organize_loop_invariant src now
                  (λ s, fs s !! src = Some Dir) scan 0 st1 E) as Hk.
    rewrite Hloop in Hk. apply Hk.
    intros j m s _ Hs. by apply organize_one_keeps_dirs. }
  assert (∀ n, n ∈ scan2 → considered src (fs st') n = false) as Hskip.
  { intros n Hn. unfold considered, is_file_in. rewrite Hfs.
    apply (organize_loop_leaves_none src now scan 0 st1 st3 n Hnd Hloop).
    by apply Hsub. }
  rewrite organize_files_run, create_directories_run.
  rewrite ensure_dirs_all_exist by done.
  unfold iterdir. cbn [logging_info reset_counts fst snd fs]. rewrite Hsrc.
  rewrite organize_loop_all_skip by done. done.
Qed.

(** X15. When [organize_files] is run again right after a run that
    returned, on a listing with no new names, and returns, it has found no
    file to move: the numbers returned are [(0, 0)], and the log file
    apart every entry of the file system is as the first run left it.
    ([organized_files] is taken not to be a regular file.) *)
Theorem X15_second_run_moves_nothing (src : Path) (scan scan2 : list string)
    (now now' : nat → datetime) (st : state) (c c2 : nat * nat) :
  NoDup scan →
  is_file_in (fs st) (organized_dir src) = false →
  (organize_files src scan now st).1 = Ok c →
  scan2 ⊆ scan →
  let st' := (organize_files src scan now st).2 in
  (organize_files src scan2 now' st').1 = Ok c2 →
  c2 = (0, 0)
  ∧ ∀ q, q ≠ log_file →
         fs (organize_files src scan2 now' st').2 !! q = fs st' !! q.
Proof.
  intros Hnd Hnf Hrun Hsub st' Hagain.
  destruct (organize_files_again src scan scan2 now now' st c Hnd Hnf Hrun
              Hsub) as [Hzero Hfs].
  fold st' in Hzero, Hfs. split; [congruence|].
  intros q _. by rewrite Hfs.
Qed.

Lemma X15_second_run_moves_nothing_witness :
  let st' := (organize_files docs scan_first_run at_noon
                (fresh_state fs_first_run)).2 in
  fs (organize_files docs scan_first_run at_noon st').2 !! dest_of docs "a.txt"
  = fs st' !! dest_of docs "a.txt".
Proof.
  intros st'.
  destruct (X15_second_run_moves_nothing docs scan_first_run scan_first_run
              at_noon at_noon (fresh_state fs_first_run) (3, 3) (0, 0))
    as [_ H].
  - apply (bool_decide_unpack _). vm_compute. exact I.
  - reflexivity.
  - vm_compute. reflexivity.
  - done.
  - vm_compute. reflexivity.
  - apply H. discriminate.
Defined.

(** ** The report file *)

Lemma parent_report_path src : parent (report_path src) = organized_dir src.
Proof. apply parent_child. Qed.

Lemma glob_count_insert f p x d :
  parent p ≠ d → p ≠ d → glob_count (<[p := x]> f) d = glob_count f d.
Proof.
  intros Hpar Hne. unfold glob_count, is_dir_in, entries_of.
  rewrite lookup_insert_ne by done.
  rewrite map_filter_insert_not; [done|]. intros y [_ H]. done.
Qed.

Lemma report_name_not_in_layout : "organization_report.txt" ∉ layout_names.
Proof. apply (bool_decide_unpack _). vm_compute. exact I. Qed.

Lemma glob_count_report src f x c :
  c ∈ layout_names →
  glob_count (<[report_path src := x]> f) (organized_dir src // c)
  = glob_count f (organized_dir src // c).
Proof.
  intros Hc. apply glob_count_insert.
  - rewrite parent_report_path. apply not_eq_sym, child_neq.
  - intros ?%child_inj. subst c. by apply report_name_not_in_layout.
Qed.

(** The report file is in none of the folders the report counts. *)
Lemma expected_report_insert src f x :
  expected_report src (<[report_path src := x]> f) = expected_report src f.
Proof.
  unfold expected_report. f_equal. f_equal.
  - apply map_ext_in. intros [c exts] Hin. cbn. f_equal.
    apply glob_count_report. unfold layout_names.
    apply elem_of_app. left. apply list_elem_of_In in Hin.
    by apply (list_elem_of_fmap_2 fst _ (c, exts)).
  - f_equal. f_equal. apply glob_count_report.
    unfold layout_names. apply elem_of_app. right. by left.
Qed.

Lemma write_text_run p text st :
  write_text p text st =
    if is_dir_in (fs st) p then (Raise (IsADirectoryError p), st)
    else if is_dir_in (fs st) (parent p)
         then (Ok (), set_fs (<[p := File text]> (fs st)) st)
         else (Raise (parent_error (fs st) p), st).
Proof. reflexivity. Qed.

(** In this development's file system a second [generate_report] finds
    what the first one left and leaves it. *)
Lemma generate_report_again (src : Path) (st : state) :
  let once := generate_report src st in
  let twice := generate_report src once.2 in
  expected_report src (fs once.2) = expected_report src (fs st)
  ∧ fs twice.2 = fs once.2
  ∧ twice.1 = once.1.
Proof.
  cbv zeta. rewrite (generate_report_run src st), write_text_run.
  destruct (is_dir_in (fs st) (report_path src)) eqn:Hd.
  { cbn [fst snd fs logging_error]. split; [done|].
    rewrite generate_report_run, write_text_run.
    cbn [fst snd fs logging_error]. by rewrite Hd. }
  destruct (is_dir_in (fs st) (parent (report_path src))) eqn:Hp.
  2: { cbn [fst snd fs logging_error]. split; [done|].
       rewrite generate_report_run, write_text_run.
       cbn [fst snd fs logging_error]. by rewrite Hd, Hp. }
  cbn [fst snd fs logging_info set_fs].
  rewrite expected_report_insert. split; [done|].
  rewrite generate_report_run, write_text_run.
  cbn [fst snd fs logging_info set_fs]. rewrite expected_report_insert.
  set (text := join_lines (expected_report src (fs st))).
  assert (is_dir_in (<[report_path src := File text]> (fs st))
            (report_path src) = false) as ->.
  { unfold is_dir_in. by rewrite lookup_insert_eq. }
  assert (is_dir_in (<[report_path src := File text]> (fs st))
            (parent (report_path src)) = true) as ->.
  { unfold is_dir_in in *. rewrite lookup_insert_ne; [done|].
    rewrite parent_report_path. apply child_neq. }
  cbn [fst snd fs logging_info set_fs]. by rewrite insert_insert_eq.
Qed.

(** X10. The report written by [generate_report] is also the report of
    the file system that now holds it, since the report file lies in none
    of the folders counted; and when it is generated again at once, both
    calls returning, the second leaves every entry other than the log
    file as the first one left it, the report file included. *)
Theorem X10_report_is_stable (src : Path) (st : state) :
  let once := generate_report src st in
  let twice := generate_report src once.2 in
  expected_report src (fs once.2) = expected_report src (fs st)
  ∧ (once.1 = Ok () → twice.1 = Ok () →
     ∀ q, q ≠ log_file → fs twice.2 !! q = fs once.2 !! q).
Proof.
  intros once twice.
  destruct (generate_report_again src st) as (Hrep & Hfs & _).
  fold once in Hrep, Hfs. fold twice in Hfs. split; [done|].
  intros _ _ q _. by rewrite Hfs.
Qed.

Lemma X10_report_is_stable_witness :
  let once := generate_report docs (fresh_state fs_collision) in
  fs (generate_report docs once.2).2 !! report_path docs
  = fs once.2 !! report_path docs.
Proof.
  intros once.
  destruct (X10_report_is_stable docs (fresh_state fs_collision)) as [_ H].
  apply H.
  - vm_compute. reflexivity.
  - vm_compute. reflexivity.
  - discriminate.
Defined.

(** X11. When [generate_report] returns, [organized_files] was a
    directory, no directory was in the place of the report file, and the
    report file now holds the lines of the report for the file system the
    call found.  Whether it returns or raises, no entry other than the
    report file and the log file changes. *)
Theorem X11_generate_report_outcome (src : Path) (st : state) :
  ((generate_report src st).1 = Ok () →
   is_dir_in (fs st) (report_path src) = false
   ∧ is_dir_in (fs st) (organized_dir src) = true
   ∧ fs (generate_report src st).2 !! report_path src
     = Some (File (join_lines (expected_report src (fs st)))))
  ∧ (∀ q, q ≠ report_path src → q ≠ log_file →
          fs (generate_report src st).2 !! q = fs st !! q).
Proof.
  split.
  - rewrite generate_report_run, write_text_run, parent_report_path.
    destruct (is_dir_in (fs st) (report_path src)); [done|].
    destruct (is_dir_in (fs st) (organized_dir src)); [|done].
    intros _. cbn. by rewrite lookup_insert_eq.
  - intros q Hq _. by apply generate_report_footprint.
Qed.

Lemma X11_generate_report_outcome_witness :
  fs (generate_report docs (fresh_state fs_collision)).2 !! report_path docs
  = Some (File (join_lines (expected_report docs fs_collision))).
Proof.
  apply (X11_generate_report_outcome docs (fresh_state fs_collision)).
  vm_compute. reflexivity.
Defined.

(** ** What [main] prints *)

Lemma generate_report_stdout src st :
  stdout (generate_report src st).2 = stdout st.
Proof.
  rewrite generate_report_run.
  destruct (write_text _ _ _) as [[[]|e] st'] eqn:Hw.
  - by apply write_text_Ok in Hw as ->.
  - by apply write_text_Raise in Hw as ->.
Qed.

Lemma organize_files_equal_counts src scan now st o t :
  (organize_files src scan now st).1 = Ok (o, t) → o = t.
Proof.
  intros Hrun. apply organize_files_Ok_steps in Hrun
    as (st1 & st3 & Hc & _ & Hloop & _ & [= -> ->]).
  destruct (create_directories_frame src (reset_counts st).2) as (_ & Ht & Ho).
  rewrite Hc in Ht, Ho. cbn in Ht, Ho.
  eapply organize_loop_eq; [done|]. by rewrite Ht, Ho.
Qed.

(** X12. [main] always returns: no exception of the file operations
    leaves it.  After the prompt it prints either the single line
    [An error occurred: ...], or, when both steps returned, the four lines
    of success, whose summary always names the same number twice. *)
Theorem X12_main_always_returns (user_input : string) (scan : list string)
    (now : nat → datetime) (st : state) :
  let src := Path_of_string user_input in
  let prompt := "Enter the directory path to organize: " in
  let run := organize_files src scan now (print prompt st).2 in
  let result := main user_input scan now st in
  result.1 = Ok ()
  ∧ ((∃ e, stdout result.2
           = stdout st ++ [prompt; "An error occurred: " +:+ exn_str e])
     ∨ (∃ k, run.1 = Ok (k, k)
             ∧ (generate_report src run.2).1 = Ok ()
             ∧ stdout result.2 = stdout st ++ prompt :: success_lines k k)).
Proof.
  intros src prompt run result.
  pose proof (main_run user_input scan now st) as Hm. cbv zeta in Hm.
  fold src prompt run result in Hm.
  pose proof (organize_files_stdout src scan now (print prompt st).2) as Hout.
  fold run in Hout. cbn [print fst snd stdout] in Hout.
  pose proof (organize_files_equal_counts src scan now (print prompt st).2)
    as Heq. fold run in Heq.
  pose proof (generate_report_stdout src run.2) as Hrep.
  rewrite Hm. clear Hm.
  destruct run as [[[o t]|e] st1]; cbn [fst snd] in *.
  - rewrite (Heq o t eq_refl) in *.
    destruct (generate_report src st1) as [[[]|e] st2]; cbn [fst snd] in *.
    + split; [done|]. right. exists t. split; [done|]. split; [done|].
      cbn. rewrite Hrep, Hout. by rewrite <- app_assoc.
    + split; [done|]. left. exists e. cbn. rewrite Hrep, Hout.
      by rewrite <- app_assoc.
  - split; [done|]. left. exists e. cbn. rewrite Hout.
    by rewrite <- app_assoc.
Qed.

(** ** Renamed destinations at different seconds *)

Lemma digit_mod a b : digit a = digit b → a mod 10 = b mod 10.
Proof.
  unfold digit. intros H. apply (f_equal nat_of_ascii) in H.
  pose proof (Nat.mod_upper_bound a 10 ltac:(lia)).
  pose proof (Nat.mod_upper_bound b 10 ltac:(lia)).
  rewrite !nat_ascii_embedding in H by lia. lia.
Qed.

Lemma string_cons_inj (a b : ascii) (s s' : string) :
  String a s = String b s' → a = b ∧ s = s'.
Proof. by intros [= -> ->]. Qed.

Lemma pad2_inj a b : a < 100 → b < 100 → pad2 a = pad2 b → a = b.
Proof.
  intros Ha Hb H. unfold pad2 in H.
  apply string_cons_inj in H as [H1%digit_mod H].
  apply string_cons_inj in H as [H2%digit_mod _].
  pose proof (Nat.div_mod_eq a 10). pose proof (Nat.div_mod_eq b 10).
  assert (a / 10 < 10) by (apply Nat.Div0.div_lt_upper_bound; lia).
  assert (b / 10 < 10) by (apply Nat.Div0.div_lt_upper_bound; lia).
  rewrite !Nat.mod_small in H1 by done. lia.
Qed.

Lemma pad4_inj a b :
  a < 100 * 100 → b < 100 * 100 → pad4 a = pad4 b → a = b.
Proof.
  intros Ha Hb H. unfold pad4, pad2 in H.
  apply string_cons_inj in H as [H1%digit_mod H].
  apply string_cons_inj in H as [H2%digit_mod H].
  apply string_cons_inj in H as [H3%digit_mod H].
  apply string_cons_inj in H as [H4%digit_mod _].
  pose proof (Nat.div_mod_eq a 10). pose proof (Nat.div_mod_eq b 10).
  pose proof (Nat.div_mod_eq (a / 10) 10).
  pose proof (Nat.div_mod_eq (b / 10) 10).
  pose proof (Nat.div_mod_eq (a / 100) 10).
  pose proof (Nat.div_mod_eq (b / 100) 10).
  assert (a / 10 / 10 = a / 100) as Ea1 by by rewrite Nat.Div0.div_div.
  assert (b / 10 / 10 = b / 100) as Eb1 by by rewrite Nat.Div0.div_div.
  assert (a / 100 / 10 = a / 1000) as Ea2 by by rewrite Nat.Div0.div_div.
  assert (b / 100 / 10 = b / 1000) as Eb2 by by rewrite Nat.Div0.div_div.
  assert (a / 1000 < 10) by (apply Nat.Div0.div_lt_upper_bound; lia).
  assert (b / 1000 < 10) by (apply Nat.Div0.div_lt_upper_bound; lia).
  rewrite !Nat.mod_small in H1 by done. lia.
Qed.

Lemma str_app_inv_head s a b : s +:+ a = s +:+ b → a = b.
Proof.
  induction s as [|c s IH]; rewrite ?str_app_nil_l, ?str_app_cons; [done|].
  intros [= H]. by apply IH.
Qed.

Lemma str_app_inv_length a b s s' :
  String.length a = String.length b → a +:+ s = b +:+ s' → a = b ∧ s = s'.
Proof.
  revert b. induction a as [|c a IH]; intros [|c' b]; cbn; try done.
  rewrite !str_app_cons. intros [= Hlen] [= -> H].
  destruct (IH b Hlen H) as [-> ->]. done.
Qed.

Lemma pad2_length n : String.length (pad2 n) = 2.
Proof. reflexivity. Qed.

Lemma pad4_length n : String.length (pad4 n) = 4.
Proof. reflexivity. Qed.

Lemma strftime_inj t t' :
  valid_datetime t → valid_datetime t' → strftime t = strftime t' → t = t'.
Proof.
  intros (Hy & Hm & Hd & Hh & Hmi & Hs) (Hy' & Hm' & Hd' & Hh' & Hmi' & Hs').
  unfold strftime. intros H.
  apply str_app_inv_length in H as [H1 H]; [|by rewrite !pad4_length].
  apply str_app_inv_length in H as [H2 H]; [|by rewrite !pad2_length].
  apply str_app_inv_length in H as [H3 H]; [|by rewrite !pad2_length].
  apply str_app_inv_head in H.
  apply str_app_inv_length in H as [H4 H]; [|by rewrite !pad2_length].
  apply str_app_inv_length in H as [H5 H6]; [|by rewrite !pad2_length].
  apply pad4_inj in H1; [|lia..].
  apply pad2_inj in H2; [|lia..]. apply pad2_inj in H3; [|lia..].
  apply pad2_inj in H4; [|lia..]. apply pad2_inj in H5; [|lia..].
  apply pad2_inj in H6; [|lia..].
  destruct t, t'. cbn in *. congruence.
Qed.

(** X14. Two clock readings that differ, each within the calendar ranges,
    give different renamed destinations to the same file: collisions of
    one name at different seconds never share a path. *)
Theorem X14_renamed_differs_by_second (src : Path) (n : string)
    (t t' : datetime) :
  valid_datetime t → valid_datetime t' → t ≠ t' →
  renamed_of src n t ≠ renamed_of src n t'.
Proof.
  intros Ht Ht' Hne Heq. apply Hne. rewrite !renamed_of_name in Heq.
  apply child_inj in Heq. do 2 apply str_app_inv_head in Heq.
  apply str_app_inv_length in Heq as [Heq _];
    [|by rewrite !strftime_length].
  by apply strftime_inj.
Qed.

Lemma X14_renamed_differs_by_second_witness :
  renamed_of docs "a.txt" noon
  ≠ renamed_of docs "a.txt" (mkDatetime 2024 1 1 12 0 1).
Proof.
  apply X14_renamed_differs_by_second.
  - unfold valid_datetime. cbn. lia.
  - unfold valid_datetime. cbn. lia.
  - discriminate.
Defined.

(** ** The log of a run *)






(** * Collisions over a whole run *)

(** ** The moves an iteration and a loop make *)















